(** * HeritageNet: the Telegram bridge of the Chronos pipeline

    A shallow embedding of [telegram_bridge.py] (the orchestration of
    OCR + knowledge graph, pattern discovery and hypothesis verification
    behind [process_telegram_image]) and of the graph commit that [main.py]
    issues, with the properties of the design document checked against it.

    Python values are a small inductive type, dictionaries are [gmap]s with
    string keys, the external collaborators (file system, pipeline, graph
    store, verifier) are fields of a [world] record giving the outcome of
    each call, and the function itself runs in a trace-and-exception monad,
    so that "which collaborator was invoked, in which order" is a statement
    about the trace it leaves. *)

From stdpp Require Import gmap strings list fin_maps.
From Stdlib Require Import Ascii String.

Local Open Scope string_scope.
Local Set Warnings "-register-all,-abstract-large-number".

(** ** Python values, dictionaries and exceptions *)

Module Py.

(** The values that cross the bridge: [None], booleans, integers, strings
    and lists of values. *)
Inductive pyval : Type :=
| VNone
| VBool (b : bool)
| VInt (z : Z)
| VStr (s : string)
| VList (l : list pyval).

(** Python's truth value testing, as used by [if p.get('question')] and
    [if not questions]. *)
Definition truthy (v : pyval) : bool :=
  match v with
  | VNone => false
  | VBool b => b
  | VInt z => negb (z =? 0)%Z
  | VStr s => negb (String.eqb s "")
  | VList l => match l with [] => false | _ :: _ => true end
  end.

(** What can be raised.  [except Exception] catches the first kind only:
    [KeyboardInterrupt], [SystemExit] and the like derive from
    [BaseException] alone.  The string is [str(e)]. *)
Inductive exn : Type :=
| Exc (msg : string)
| BaseExc (msg : string).

Definition str_of_exn (e : exn) : string :=
  match e with Exc m => m | BaseExc m => m end.

(** The outcome of a call: a value, or an exception. *)
Inductive outcome (A : Type) : Type :=
| Returned (a : A)
| Raised (e : exn).
Arguments Returned {A} a.
Arguments Raised {A} e.

(** [d.get(k)]: the value, [None] when the key is missing. *)
Definition dict_get (d : gmap string pyval) (k : string) : pyval :=
  default VNone (d !! k).

(** [d[k]]: the value, [KeyError] when the key is missing. *)
Definition dict_getitem (d : gmap string pyval) (k : string) : outcome pyval :=
  match d !! k with
  | Some v => Returned v
  | None => Raised (Exc ("'" +:+ k +:+ "'"))
  end.

End Py.
Export Py.

(** ** The start time and its rendering *)

Module Clock.

(** A [datetime] as [datetime.now()] returns it. *)
Record datetime : Type := {
  year : nat; month : nat; day : nat;
  hour : nat; minute : nat; second : nat;
  microsecond : nat
}.

Definition digit (n : nat) : ascii := ascii_of_nat (48 + n mod 10).

(** [%m], [%d], [%H], [%M], [%S]: two decimal digits, zero padded. *)
Definition pad2 (n : nat) : string :=
  String (digit (n / 10)) (String (digit n) EmptyString).

(** [%Y]: four decimal digits (years 1000 to 9999, the range of a clock
    reading). *)
Definition pad4 (n : nat) : string :=
  String (digit (n / 1000)) (String (digit (n / 100)) (pad2 n)).

(** [dt.strftime("%Y%m%d_%H%M%S")]. *)
Definition strftime_Ymd_HMS (dt : datetime) : string :=
  pad4 (year dt) +:+ pad2 (month dt) +:+ pad2 (day dt) +:+ "_"
    +:+ pad2 (hour dt) +:+ pad2 (minute dt) +:+ pad2 (second dt).

(** Two clock readings within the same second. *)
Definition same_second (a b : datetime) : Prop :=
  year a = year b ∧ month a = month b ∧ day a = day b ∧
  hour a = hour b ∧ minute a = minute b ∧ second a = second b.

End Clock.
Export Clock.

(** ** The run identifier (telegram_bridge.py, lines 34-35) *)

(** [element_id = f"telegram_{user_id}_{timestamp}"] with
    [timestamp = datetime.now().strftime("%Y%m%d_%H%M%S")]. *)
Definition element_id_of (user_id : string) (start : datetime) : string :=
  let timestamp := strftime_Ymd_HMS start in
  "telegram_" +:+ user_id +:+ "_" +:+ timestamp.

(** ** File-system paths ([pathlib.Path]) *)

Module Path.

(** A path is its sequence of parts; an absolute path starts with the
    empty part, so that joining the parts with "/" renders it. *)
Definition path : Type := list string.

Fixpoint split_slash (acc : string) (s : string) : list string :=
  match s with
  | EmptyString => [acc]
  | String c s' =>
      if Ascii.eqb c "/" then acc :: split_slash "" s'
      else split_slash (acc +:+ String c EmptyString) s'
  end.

(** The parts of a relative path given as text: empty and "." components
    are dropped, as [pathlib] does. *)
Definition parts (s : string) : list string :=
  List.filter (λ p, negb (String.eqb p "") && negb (String.eqb p "."))
              (split_slash "" s).

(** [p / s] for a relative [s]. *)
Definition div (p : path) (s : string) : path := (p ++ parts s)%list.

(** [p.parent]. *)
Definition parent (p : path) : path := removelast p.

(** [str(p)]. *)
Definition to_str (p : path) : string := String.concat "/" p.

End Path.

(** ** The bridge: [process_telegram_image] (telegram_bridge.py) *)

Module Bridge.

Record neo4j_config : Type := {
  neo4j_url : string;
  neo4j_username : string;
  neo4j_password : string
}.

(** The calls that leave the function, with the arguments the source
    passes.  The [print] calls are not events: they only write progress
    text to the standard output. *)
Inductive event : Type :=
| EvMkdir (dir : Path.path)
| EvPipelineInit (cfg : neo4j_config) (use_advanced_ocr use_advanced_kg : bool)
| EvProcessDocument (input_file output_text_file : string)
    (ocr_config : gmap string pyval) (element_id : string)
    (kg_chunk_size : nat) (enable_chunking : bool)
| EvDiscoveryInit (cfg : neo4j_config)
| EvDiscoverPatterns (max_length max_patterns_per_length : nat)
| EvDiscoveryClose
| EvVerifierInit (output_dir : string)
| EvVerify (questions : list pyval).

(** The environment of one call: the clock, the directory of the module,
    [os.environ], and what each collaborator does when it is called (the
    function calls each of them at most once).
    The return types are the ones the function relies on: it takes
    [len] of the text and of the results, iterates over the patterns and
    calls [get] on each. *)
Record world : Type := {
  now : datetime;
  chronos_dir : Path.path;
  environ : gmap string string;
  mkdir_exist_ok : Path.path → outcome unit;
  MedicalDocumentPipeline : neo4j_config → outcome unit;
  process_document : string → string → string → outcome (string * pyval);
  KGPatternDiscovery : neo4j_config → outcome unit;
  discover_patterns : nat → nat → outcome (list (gmap string pyval));
  close : outcome unit;
  HypothesisVerifier : string → outcome unit;
  verify_questions_sync : list pyval → outcome (list pyval)
}.

(** [os.environ.get(key, default)]. *)
Definition environ_get (w : world) (key dflt : string) : string :=
  default dflt (environ w !! key).

(** *** The trace-and-exception monad *)

Definition M (A : Type) : Type := list event → outcome A * list event.

Definition ret {A} (a : A) : M A := λ tr, (Returned a, tr).

Definition bind {A B} (m : M A) (k : A → M B) : M B :=
  λ tr, match m tr with
        | (Returned a, tr') => k a tr'
        | (Raised e, tr') => (Raised e, tr')
        end.

(** A call to a collaborator: it is recorded, then it returns or raises. *)
Definition call {A} (ev : event) (o : outcome A) : M A :=
  λ tr, (o, (tr ++ [ev])%list).

(** A computation of the function's own that may raise. *)
Definition lift {A} (o : outcome A) : M A := λ tr, (o, tr).

(** [try: body except Exception as e: handler(e)]. *)
Definition try_except_Exception {A} (body : M A) (handler : exn → M A) : M A :=
  λ tr, match body tr with
        | (Raised (Exc msg), tr') => handler (Exc msg) tr'
        | r => r
        end.

#[global] Instance M_ret : MRet M := @ret.
#[global] Instance M_bind : MBind M := λ A B k m, bind m k.

(** *** Line 111: the questions of the patterns

    [[p['question'] for p in patterns if p.get('question')]] *)
Fixpoint extract_questions (patterns : list (gmap string pyval))
  : outcome (list pyval) :=
  match patterns with
  | [] => Returned []
  | p :: rest =>
      if truthy (dict_get p "question") then
        match dict_getitem p "question" with
        | Raised e => Raised e
        | Returned q =>
            match extract_questions rest with
            | Raised e => Raised e
            | Returned qs => Returned (q :: qs)
            end
        end
      else extract_questions rest
  end.

(** *** Lines 75-80 *)
Definition ocr_config : gmap string pyval :=
  {[ "use_preprocessing" := VBool true;
     "enhancement_level" := VStr "aggressive";
     "medical_context" := VBool true;
     "save_debug_images" := VBool false ]}.

(** *** Lines 113-119, 141-147 and 154-157: the three reports *)
Definition no_hypotheses_report (extracted_text : string) : gmap string pyval :=
  {[ "success" := VBool false;
     "error" := VStr "No hypotheses generated from the image";
     "ocr_text" := VStr extracted_text ]}.

Definition success_report (questions results : list pyval)
    (extracted_text element_id : string) : gmap string pyval :=
  {[ "success" := VBool true;
     "hypotheses" := VList questions;
     "verification_results" := VList results;
     "ocr_text" := VStr extracted_text;
     "element_id" := VStr element_id ]}.

Definition error_report (str_e : string) : gmap string pyval :=
  {[ "success" := VBool false;
     "error" := VStr str_e ]}.

(** *** Lines 57-147: the body of the [try] *)
Definition pipeline_body (w : world) (image_path element_id : string)
    (output_text_file : Path.path) (cfg : neo4j_config)
  : M (gmap string pyval) :=
  _ ← call (EvPipelineInit cfg true false) (MedicalDocumentPipeline w cfg) ;
  ' (extracted_text, graph_elements) ←
      call (EvProcessDocument image_path (Path.to_str output_text_file)
              ocr_config element_id 10000 true)
           (process_document w image_path (Path.to_str output_text_file)
              element_id) ;
  _ ← call (EvDiscoveryInit cfg) (KGPatternDiscovery w cfg) ;
  patterns ← call (EvDiscoverPatterns 3 5) (discover_patterns w 3 5) ;
  _ ← call EvDiscoveryClose (close w) ;
  questions ← lift (extract_questions patterns) ;
  if negb (truthy (VList questions)) then
    ret (no_hypotheses_report extracted_text)
  else
    let output_dir := Path.to_str (Path.div (chronos_dir w) "hypothesis_results") in
    _ ← call (EvVerifierInit output_dir) (HypothesisVerifier w output_dir) ;
    results ← call (EvVerify questions) (verify_questions_sync w questions) ;
    ret (success_report questions results extracted_text element_id).

(** *** Lines 23-157 *)
Definition process_telegram_image_M (w : world) (image_path user_id : string)
  : M (gmap string pyval) :=
  let element_id := element_id_of user_id (now w) in
  let output_text_file :=
    Path.div (Path.div (chronos_dir w) "chronos_output")
             (element_id +:+ "_text.txt") in
  _ ← call (EvMkdir (Path.parent output_text_file))
            (mkdir_exist_ok w (Path.parent output_text_file)) ;
  let NEO4J_URL := environ_get w "NEO4J_URL" "neo4j://127.0.0.1:7687" in
  let NEO4J_USERNAME := environ_get w "NEO4J_USERNAME" "neo4j" in
  let NEO4J_PASSWORD := environ_get w "NEO4J_PASSWORD" "0123456789" in
  let cfg := {| neo4j_url := NEO4J_URL; neo4j_username := NEO4J_USERNAME;
                neo4j_password := NEO4J_PASSWORD |} in
  try_except_Exception
    (pipeline_body w image_path element_id output_text_file cfg)
    (λ e, ret (error_report (str_of_exn e))).

(** One call from an empty trace: what the caller gets ([Returned] a
    report, or [Raised] an exception that propagates to it) and the
    calls that were made. *)
Definition process_telegram_image (w : world) (image_path user_id : string)
  : outcome (gmap string pyval) * list event :=
  process_telegram_image_M w image_path user_id [].

(** *** Lines 170-173: how the caller in [__main__] reads a report

    [print(f"Success: {result['success']}")], then
    [if result.get('error'): print(f"Error: ...")]. *)
Definition reads_as_error (result : gmap string pyval) : bool :=
  truthy (dict_get result "error").

(** *** Observations on traces *)

Definition is_verify (ev : event) : bool :=
  match ev with EvVerify _ | EvVerifierInit _ => true | _ => false end.

Definition is_discovery (ev : event) : bool :=
  match ev with
  | EvDiscoveryInit _ | EvDiscoverPatterns _ _ | EvDiscoveryClose => true
  | _ => false
  end.

Definition is_discovery_open (ev : event) : bool :=
  match ev with EvDiscoveryInit _ => true | _ => false end.

Definition is_discovery_close (ev : event) : bool :=
  match ev with EvDiscoveryClose => true | _ => false end.

Definition invoked (f : event → bool) (tr : list event) : bool :=
  existsb f tr.

(** *** The paths through one call

    The values the function computes before the [try], the events of its
    calls, and the relation that lists every way a call can end.  It is
    proved below to be exactly the graph of [process_telegram_image]. *)
Section Paths.
Variables (w : world) (image_path user_id : string).

Definition run_element_id : string := element_id_of user_id (now w).

Definition run_output_text_file : Path.path :=
  Path.div (Path.div (chronos_dir w) "chronos_output")
           (run_element_id +:+ "_text.txt").

Definition run_cfg : neo4j_config :=
  {| neo4j_url := environ_get w "NEO4J_URL" "neo4j://127.0.0.1:7687";
     neo4j_username := environ_get w "NEO4J_USERNAME" "neo4j";
     neo4j_password := environ_get w "NEO4J_PASSWORD" "0123456789" |}.

Definition run_verifier_dir : string :=
  Path.to_str (Path.div (chronos_dir w) "hypothesis_results").

Definition ev_mkdir : event := EvMkdir (Path.parent run_output_text_file).
Definition ev_pipeline : event := EvPipelineInit run_cfg true false.
Definition ev_document : event :=
  EvProcessDocument image_path (Path.to_str run_output_text_file)
    ocr_config run_element_id 10000 true.
Definition ev_open : event := EvDiscoveryInit run_cfg.
Definition ev_discover : event := EvDiscoverPatterns 3 5.
Definition ev_verifier : event := EvVerifierInit run_verifier_dir.

(** Line 40 returned. *)
Definition setup_ok : Prop :=
  mkdir_exist_ok w (Path.parent run_output_text_file) = Returned ().

(** Lines 66-89 returned: the pipeline was built and [process_document]
    gave the text and the graph elements. *)
Definition document_ok (extracted_text : string) (graph_elements : pyval) : Prop :=
  MedicalDocumentPipeline w run_cfg = Returned () ∧
  process_document w image_path (Path.to_str run_output_text_file)
    run_element_id = Returned (extracted_text, graph_elements).

(** Lines 98-108 returned: the discovery object was built, gave the
    patterns and was closed. *)
Definition discovery_ok (patterns : list (gmap string pyval)) : Prop :=
  KGPatternDiscovery w run_cfg = Returned () ∧
  discover_patterns w 3 5 = Returned patterns ∧
  close w = Returned ().

(** The ways the body of the [try] raises, with the calls made so far. *)
Inductive body_raises : exn → list event → Prop :=
| raises_pipeline e :
    MedicalDocumentPipeline w run_cfg = Raised e →
    body_raises e [ev_mkdir; ev_pipeline]
| raises_document e :
    MedicalDocumentPipeline w run_cfg = Returned () →
    process_document w image_path (Path.to_str run_output_text_file)
      run_element_id = Raised e →
    body_raises e [ev_mkdir; ev_pipeline; ev_document]
| raises_open text ge e :
    document_ok text ge →
    KGPatternDiscovery w run_cfg = Raised e →
    body_raises e [ev_mkdir; ev_pipeline; ev_document; ev_open]
| raises_discover text ge e :
    document_ok text ge →
    KGPatternDiscovery w run_cfg = Returned () →
    discover_patterns w 3 5 = Raised e →
    body_raises e [ev_mkdir; ev_pipeline; ev_document; ev_open; ev_discover]
| raises_close text ge patterns e :
    document_ok text ge →
    KGPatternDiscovery w run_cfg = Returned () →
    discover_patterns w 3 5 = Returned patterns →
    close w = Raised e →
    body_raises e [ev_mkdir; ev_pipeline; ev_document; ev_open; ev_discover;
                   EvDiscoveryClose]
| raises_verifier text ge patterns q qs e :
    document_ok text ge →
    discovery_ok patterns →
    extract_questions patterns = Returned (q :: qs) →
    HypothesisVerifier w run_verifier_dir = Raised e →
    body_raises e [ev_mkdir; ev_pipeline; ev_document; ev_open; ev_discover;
                   EvDiscoveryClose; ev_verifier]
| raises_verify text ge patterns q qs e :
    document_ok text ge →
    discovery_ok patterns →
    extract_questions patterns = Returned (q :: qs) →
    HypothesisVerifier w run_verifier_dir = Returned () →
    verify_questions_sync w (q :: qs) = Raised e →
    body_raises e [ev_mkdir; ev_pipeline; ev_document; ev_open; ev_discover;
                   EvDiscoveryClose; ev_verifier; EvVerify (q :: qs)].

(** The two ways the body of the [try] reaches a [return]. *)
Inductive body_returns : gmap string pyval → list event → Prop :=
| returns_no_hypotheses text ge patterns :
    document_ok text ge →
    discovery_ok patterns →
    extract_questions patterns = Returned [] →
    body_returns (no_hypotheses_report text)
      [ev_mkdir; ev_pipeline; ev_document; ev_open; ev_discover;
       EvDiscoveryClose]
| returns_success text ge patterns q qs results :
    document_ok text ge →
    discovery_ok patterns →
    extract_questions patterns = Returned (q :: qs) →
    HypothesisVerifier w run_verifier_dir = Returned () →
    verify_questions_sync w (q :: qs) = Returned results →
    body_returns (success_report (q :: qs) results text run_element_id)
      [ev_mkdir; ev_pipeline; ev_document; ev_open; ev_discover;
       EvDiscoveryClose; ev_verifier; EvVerify (q :: qs)].

(** Every way a call ends: line 40 raises (outside the [try]); the body
    raises an [Exception], which the handler turns into the error report;
    the body raises something that is no [Exception], which propagates;
    the body returns. *)
Inductive run_path : outcome (gmap string pyval) * list event → Prop :=
| path_setup_raises e :
    mkdir_exist_ok w (Path.parent run_output_text_file) = Raised e →
    run_path (Raised e, [ev_mkdir])
| path_caught msg tr :
    setup_ok → body_raises (Exc msg) tr →
    run_path (Returned (error_report msg), tr)
| path_uncaught msg tr :
    setup_ok → body_raises (BaseExc msg) tr →
    run_path (Raised (BaseExc msg), tr)
| path_returns r tr :
    setup_ok → body_returns r tr →
    run_path (Returned r, tr).

End Paths.

End Bridge.
Export Bridge.

(** ** The design document's reading of the bridge *)

Module Design.

(** The question of a pattern, when it has one that is not empty: the
    field is present and its value is not [None], not the empty string,
    nor any other value Python counts as empty. *)
Definition question_of (p : gmap string pyval) : option pyval :=
  match p !! "question" with
  | Some v => if truthy v then Some v else None
  | None => None
  end.

(** The non-empty question values of the patterns, in pattern order. *)
Definition nonempty_questions (patterns : list (gmap string pyval)) : list pyval :=
  omap question_of patterns.

(** The two terminal statuses of a Run. *)
Inductive run_status : Type := completed | failed.

(** The status a report stands for.  A report has no status field: its
    "success" flag is all it says about how the run ended. *)
Definition status_of_report (report : gmap string pyval) : run_status :=
  match report !! "success" with
  | Some (VBool true) => completed
  | _ => failed
  end.

(** A report carries a value when some key holds it. *)
Definition carries (report : gmap string pyval) (v : pyval) : Prop :=
  ∃ k, report !! k = Some v.

End Design.
Export Design.

(** ** The verification stage *)

Module Verifier.

(** Modelled from the spec: the verdicts and the VerificationResult of
    section 3. *)
Inductive Verdict : Type := supported | refuted | inconclusive.

Record VerificationResult : Type := {
  question : string;
  verdict : option Verdict;
  evidence : list string;
  error : option string
}.

Section Verify.
(** The verification collaborator: a verdict and its evidence for one
    question, or a failure of the call. *)
Variable verify_one : string → outcome (Verdict * list string).

(** Modelled from the spec: the result of one finished call (section 4.4);
    a failed call gives a result that carries [error], it does not stop
    the batch. *)
Definition answered (q : string) : VerificationResult :=
  match verify_one q with
  | Returned (v, ev) =>
      {| question := q; verdict := Some v; evidence := ev; error := None |}
  | Raised e =>
      {| question := q; verdict := None; evidence := [];
         error := Some (str_of_exn e) |}
  end.

(** Modelled from the spec: the entry of a question whose call had not
    finished when the batch was cancelled (section 5). *)
Definition unfinished (q : string) : VerificationResult :=
  {| question := q; verdict := None; evidence := [];
     error := Some "cancelled" |}.

(** Modelled from the spec: the call for question [i] completes and its
    result goes to slot [i]. *)
Definition complete (questions : list string)
    (slots : list (option VerificationResult)) (i : nat)
  : list (option VerificationResult) :=
  match questions !! i with
  | Some q => <[ i := Some (answered q) ]> slots
  | None => slots
  end.

(** Modelled from the spec: the calls complete in [completion_order],
    which need not be the order of the questions and need not cover them
    all. *)
Definition run_batch (questions : list string) (completion_order : list nat)
  : list (option VerificationResult) :=
  foldl (complete questions) (replicate (List.length questions) None)
        completion_order.

(** Modelled from the spec: [HypothesisVerifier.verify_questions_sync] of
    the module hypothesis_verifier, which the bridge imports and calls at
    line 129; the module is not among the sources.  The model follows
    sections 4.4 and 5 of the design document: every question is verified
    independently, possibly in parallel; a failed call is recorded in that
    question's result; a cancelled batch still gives an entry per question;
    the results are joined in the order of the questions. *)
Definition verify (questions : list string) (completion_order : list nat)
  : list VerificationResult :=
  zip_with (λ q slot, default (unfinished q) slot)
           questions (run_batch questions completion_order).

End Verify.

End Verifier.

(** ** The graph store *)

Module GraphStore.

(** Modelled from the spec: the GraphElement set of section 3, typed
    entities with a label and properties, and typed directed relationships
    between them (the classes of camel.storages are not among the
    sources). *)
Record Node : Type := {
  node_label : string;
  node_type : string;
  node_properties : gmap string string
}.

Record Relationship : Type := {
  subj : Node;
  obj : Node;
  rel_type : string;
  rel_properties : gmap string string
}.

Record GraphElement : Type := {
  nodes : list Node;
  relationships : list Relationship
}.

Definition lower (c : ascii) : ascii :=
  let n := nat_of_ascii c in
  if (65 <=? n)%nat && (n <=? 90)%nat then ascii_of_nat (n + 32) else c.

Fixpoint normalize (s : string) : string :=
  match s with
  | EmptyString => EmptyString
  | String c s' => String (lower c) (normalize s')
  end.

(** The identity the design document gives as its example: the type and
    the normalized name. *)
Definition type_and_name (n : Node) : string * string :=
  (node_type n, normalize (node_label n)).

Section Store.
(** The identity of an entity: a function of the node alone. *)
Context {K : Type} `{Countable K} (identity : Node → K).

(** Modelled from the spec: what can be queried of the graph store, the
    entities by identity and the relationships by endpoints and type, each
    with its properties. *)
Record store : Type := {
  entities : gmap K (gmap string string);
  edges : gmap (K * string * K) (gmap string string)
}.

Definition empty_store : store := {| entities := ∅; edges := ∅ |}.

(** Modelled from the spec: the merge semantics of section 4.2; a new key
    is created, an existing one keeps its properties and takes the new
    values. *)
Definition merge_into {X : Type} `{Countable X}
    (delta stored : gmap X (gmap string string)) : gmap X (gmap string string) :=
  union_with (λ new old, Some (new ∪ old)) delta stored.

Definition merge_node (s : store) (n : Node) : store :=
  {| entities := merge_into {[ identity n := node_properties n ]} (entities s);
     edges := edges s |}.

Definition merge_relationship (s : store) (r : Relationship) : store :=
  let s' := merge_node (merge_node s (subj r)) (obj r) in
  {| entities := entities s';
     edges := merge_into
                {[ (identity (subj r), rel_type r, identity (obj r))
                   := rel_properties r ]}
                (edges s') |}.

Definition commit (s : store) (ge : GraphElement) : store :=
  foldl merge_relationship (foldl merge_node s (nodes ge)) (relationships ge).

(** Modelled from the spec: [Neo4jGraph.add_graph_elements] of
    camel.storages, which main.py calls at line 38; the class is not among
    the sources.  The model follows section 4.2 of the design document:
    entities are stored under an identity derived from the node, and
    a commit merges into what is stored. *)
Definition add_graph_elements (s : store) (graph_elements : list GraphElement)
  : store :=
  foldl commit s graph_elements.

(** main.py, line 38: [n4j.add_graph_elements(graph_elements=[graph_elements])]. *)
Definition main_commit (n4j : store) (graph_elements : GraphElement) : store :=
  add_graph_elements n4j [graph_elements].

(** The store seen as a batch to merge into another. *)
Definition merge_store (delta s : store) : store :=
  {| entities := merge_into (entities delta) (entities s);
     edges := merge_into (edges delta) (edges s) |}.

(** A step of a commit merges a batch that depends on the elements only,
    not on what is stored. *)
Definition merges (f : store → store) : Prop :=
  ∃ delta, ∀ s, f s = merge_store delta s.

End Store.

(** A store that names its entities by a run-local counter instead. *)
Definition counter_commit (s : nat * gmap nat Node) (ns : list Node)
  : nat * gmap nat Node :=
  foldl (λ s n, (S s.1, <[ s.1 := n ]> s.2)) s ns.

End GraphStore.

(** ** Sample environments *)

Module Samples.

Definition start : datetime :=
  {| year := 2024; month := 3; day := 7; hour := 9; minute := 5;
     second := 42; microsecond := 250 |}.

Definition module_dir : Path.path := [""; "srv"; "chronos"].

(** A checkout in which only the directory of the module exists:
    [mkdir(exist_ok=True)] creates a directory whose parent exists and
    raises [FileNotFoundError] otherwise (it is called without
    [parents=True]). *)
Definition fresh_checkout (p : Path.path) : outcome unit :=
  if decide (Path.parent p = module_dir) then Returned ()
  else Raised (Exc "[Errno 2] No such file or directory").

Definition fever_patterns : list (gmap string pyval) :=
  [ {[ "question" := VStr "Does fever co-occur with cough?";
       "support_count" := VInt 3 ]};
    {[ "support_count" := VInt 2 ]};
    {[ "question" := VStr ""; "support_count" := VInt 2 ]};
    {[ "question" := VNone ]};
    {[ "question" := VStr "Is cough a symptom of the patient?" ]} ].

(** An environment given by what [process_document] and
    [discover_patterns] do; the other collaborators succeed. *)
Definition sample_world (document : outcome (string * pyval))
    (patterns : outcome (list (gmap string pyval))) : world :=
  {| now := start;
     chronos_dir := module_dir;
     environ := {[ "NEO4J_PASSWORD" := "s3cret" ]};
     mkdir_exist_ok := fresh_checkout;
     MedicalDocumentPipeline := λ _, Returned ();
     process_document := λ _ _ _, document;
     KGPatternDiscovery := λ _, Returned ();
     discover_patterns := λ _ _, patterns;
     close := Returned ();
     HypothesisVerifier := λ _, Returned ();
     verify_questions_sync :=
       λ qs, Returned ((λ q, VList [q; VStr "supported"]) <$> qs) |}.

Definition fever_text : string := "Patient has fever and cough.".

Definition world_success : world :=
  sample_world (Returned (fever_text, VNone)) (Returned fever_patterns).

Definition world_no_patterns : world :=
  sample_world (Returned (fever_text, VNone)) (Returned []).

Definition world_graph_failure : world :=
  sample_world (Raised (Exc "no graph elements extracted")) (Returned []).

Definition world_discovery_failure : world :=
  sample_world (Returned (fever_text, VNone))
               (Raised (Exc "no graph elements extracted")).

(** The same environment with the clock one microsecond further. *)
Definition a_moment_later (w : world) : world :=
  {| now := {| year := year (now w); month := month (now w);
               day := day (now w); hour := hour (now w);
               minute := minute (now w); second := second (now w);
               microsecond := microsecond (now w) + 1 |};
     chronos_dir := chronos_dir w;
     environ := environ w;
     mkdir_exist_ok := mkdir_exist_ok w;
     MedicalDocumentPipeline := MedicalDocumentPipeline w;
     process_document := process_document w;
     KGPatternDiscovery := KGPatternDiscovery w;
     discover_patterns := discover_patterns w;
     close := close w;
     HypothesisVerifier := HypothesisVerifier w;
     verify_questions_sync := verify_questions_sync w |}.

(** The report of the successful sample run. *)
Definition success_sample : gmap string pyval :=
  success_report
    [VStr "Does fever co-occur with cough?";
     VStr "Is cough a symptom of the patient?"]
    [VList [VStr "Does fever co-occur with cough?"; VStr "supported"];
     VList [VStr "Is cough a symptom of the patient?"; VStr "supported"]]
    fever_text "telegram_42_20240307_090542".

End Samples.
Import Samples.

(** ** Further notions on the bridge *)

Module BridgeNotions.

(** A clock reading in the range [strftime_Ymd_HMS] renders with fixed
    widths. *)
Definition valid_datetime (t : datetime) : Prop :=
  (1000 ≤ year t < 10 * 1000)%nat ∧ (1 ≤ month t ≤ 12)%nat ∧
  (1 ≤ day t ≤ 31)%nat ∧
  (hour t ≤ 23)%nat ∧ (minute t ≤ 59)%nat ∧ (second t ≤ 59)%nat.

(** The text has no "/". *)
Fixpoint slash_free (s : string) : bool :=
  match s with
  | EmptyString => true
  | String c s' => negb (Ascii.eqb c "/") && slash_free s'
  end.

(** The calls of a run that goes all the way, in the order of the source
    (lines 40, 66, 82, 98, 104, 108, 128, 129). *)
Definition full_trace (w : world) (image_path user_id : string)
    (questions : list pyval) : list event :=
  [ev_mkdir w user_id; ev_pipeline w; ev_document w image_path user_id;
   ev_open w; ev_discover; EvDiscoveryClose; ev_verifier w;
   EvVerify questions].


End BridgeNotions.
Export BridgeNotions.

(** ** A trace monad for the two scripts *)

Module Script.

(** A computation that records items of type [E] (lines printed, calls
    made) and returns or raises. *)
Definition T (E A : Type) : Type := list E → outcome A * list E.

Definition t_ret {E A} (a : A) : T E A := λ tr, (Returned a, tr).

Definition t_bind {E A B} (m : T E A) (k : A → T E B) : T E B :=
  λ tr, match m tr with
        | (Returned a, tr') => k a tr'
        | (Raised e, tr') => (Raised e, tr')
        end.

#[global] Instance T_ret {E} : MRet (T E) := @t_ret E.
#[global] Instance T_bind {E} : MBind (T E) := λ A B k m, t_bind m k.

(** The item is recorded, then the outcome is the call's. *)
Definition emit {E A} (item : E) (o : outcome A) : T E A :=
  λ tr, (o, (tr ++ [item])%list).

(** A step that records nothing. *)
Definition pure {E A} (o : outcome A) : T E A := λ tr, (o, tr).

End Script.

(** ** The [__main__] block of telegram_bridge.py (lines 160-182) *)

Module BridgeMain.
Import Script.

(** What the block prints: literal text, or a formatted line with the
    values it interpolates. *)
Inductive line : Type :=
| LText (s : string)
| LSuccess (v : pyval)
| LError (v : pyval)
| LHypothesesCount (n : nat)
| LHypothesis (i : nat) (h : pyval)
| LVerificationCount (n : nat)
| LNotFound (test_image : string).

(** [s * n]. *)
Fixpoint str_mul (s : string) (n : nat) : string :=
  match n with
  | O => EmptyString
  | S n' => s +:+ str_mul s n'
  end.

Definition rule : string := str_mul "=" 80.
Definition newline : string := String (ascii_of_nat 10) EmptyString.

(** [len(v)]. *)
Definition py_len (v : pyval) : outcome nat :=
  match v with
  | VStr s => Returned (String.length s)
  | VList l => Returned (List.length l)
  | VNone => Raised (Exc "object of type 'NoneType' has no len()")
  | VBool _ => Raised (Exc "object of type 'bool' has no len()")
  | VInt _ => Raised (Exc "object of type 'int' has no len()")
  end.

(** The items [for ... in v] goes through. *)
Definition py_iter (v : pyval) : outcome (list pyval) :=
  match v with
  | VList l => Returned l
  | VStr s => Returned ((λ c, VStr (String c EmptyString)) <$> list_ascii_of_string s)
  | VNone => Raised (Exc "'NoneType' object is not iterable")
  | VBool _ => Raised (Exc "'bool' object is not iterable")
  | VInt _ => Raised (Exc "'int' object is not iterable")
  end.

Definition print (l : line) : T line unit := emit l (Returned ()).

(** Lines 175-176: [for i, h in enumerate(..., 1): print(f"  {i}. {h}")],
    from index [i]. *)
Fixpoint print_hypotheses (i : nat) (hs : list pyval) : T line unit :=
  match hs with
  | [] => mret ()
  | h :: hs' => _ ← print (LHypothesis i h) ; print_hypotheses (S i) hs'
  end.

(** Lines 167-178: the report is shown. *)
Definition show_result (result : gmap string pyval) : T line unit :=
  _ ← print (LText (newline +:+ rule)) ;
  _ ← print (LText "RESULTS") ;
  _ ← print (LText rule) ;
  success ← pure (dict_getitem result "success") ;
  _ ← print (LSuccess success) ;
  if truthy (dict_get result "error") then
    error ← pure (dict_getitem result "error") ;
    print (LError error)
  else
    hypotheses ← pure (dict_getitem result "hypotheses") ;
    n ← pure (py_len hypotheses) ;
    _ ← print (LHypothesesCount n) ;
    hypotheses ← pure (dict_getitem result "hypotheses") ;
    items ← pure (py_iter hypotheses) ;
    _ ← print_hypotheses 1 items ;
    verification_results ← pure (dict_getitem result "verification_results") ;
    m ← pure (py_len verification_results) ;
    print (LVerificationCount m).

(** Lines 160-182, with [sys.argv] and [os.path.exists] given: what the
    block ends with, the lines it printed itself, and the calls of
    [process_telegram_image]. *)
Definition main_block (w : world) (argv : list string)
    (path_exists : string → bool)
  : (outcome unit * list line) * list event :=
  if (1 <? List.length argv)%nat then
    let test_image := nth 1 argv EmptyString in
    if path_exists test_image then
      match process_telegram_image w test_image "test_user" with
      | (Returned result, tr) => (show_result result [], tr)
      | (Raised e, tr) => ((Raised e, []), tr)
      end
    else ((Returned (), [LNotFound test_image]), [])
  else
    ((Returned (), [LText "Usage: python telegram_bridge.py <image_path>"]), []).

(** An environment whose document stage fails with an exception that has
    no message, as [raise Exception()] or a bare [assert] give. *)
Definition world_silent_failure : world :=
  sample_world (Raised (Exc "")) (Returned []).

(** [sys.argv] of [python telegram_bridge.py /tmp/photo.jpg]. *)
Definition sample_argv : list string := ["telegram_bridge.py"; "/tmp/photo.jpg"].

(** The lines for a list of hypotheses, numbered from 1. *)
Definition hypothesis_lines (hs : list pyval) : list line :=
  imap (λ k h, LHypothesis (S k) h) hs.

Definition banner : list line :=
  [LText (newline +:+ rule); LText "RESULTS"; LText rule].

End BridgeMain.

(** ** The script main.py *)

Module MainScript.
Import Script.

(** What [kg_agent.run] gives: free text, or a parsed graph element,
    depending on [parse_graph_elements]. *)
Inductive answer : Type :=
| RawText (s : string)
| Parsed (ge : GraphStore.GraphElement).

(** The element [uio.create_element_from_text] builds. *)
Record element : Type := {
  element_text : string;
  element_id : string
}.

Inductive event : Type :=
| EvNeo4jGraph (url username password : string)
| EvModelCreate (api_key : option string)
| EvUnstructuredIO
| EvKnowledgeGraphAgent
| EvOpenRead (file : string)
| EvCreateElement (text element_id : string)
| EvAgentRun (e : element) (parse_graph_elements : bool)
| EvPrint (a : answer)
| EvAddGraphElements (graph_elements : list answer).

(** The environment of one run of the script. *)
Record world : Type := {
  environ : gmap string string;
  Neo4jGraph : string → string → string → outcome unit;
  ModelFactory_create : option string → outcome unit;
  UnstructuredIO : outcome unit;
  KnowledgeGraphAgent : outcome unit;
  read_file : string → outcome string;
  create_element_from_text : string → string → outcome element;
  kg_agent_run : element → bool → outcome answer;
  add_graph_elements : list answer → outcome unit
}.

(** Lines 9-38. *)
Definition main (w : world) : T event unit :=
  _ ← emit (EvNeo4jGraph "neo4j+s://your_URL" "yourUsername" "your_Password")
           (Neo4jGraph w "neo4j+s://your_URL" "yourUsername" "your_Password") ;
  _ ← emit (EvModelCreate (environ w !! "GROQ_API_KEY"))
           (ModelFactory_create w (environ w !! "GROQ_API_KEY")) ;
  _ ← emit EvUnstructuredIO (UnstructuredIO w) ;
  _ ← emit EvKnowledgeGraphAgent (KnowledgeGraphAgent w) ;
  text_example ← emit (EvOpenRead "sample_input.txt")
                      (read_file w "sample_input.txt") ;
  element_example ← emit (EvCreateElement text_example "0")
                         (create_element_from_text w text_example "0") ;
  ans_element ← emit (EvAgentRun element_example false)
                     (kg_agent_run w element_example false) ;
  _ ← emit (EvPrint ans_element) (Returned ()) ;
  graph_elements ← emit (EvAgentRun element_example true)
                        (kg_agent_run w element_example true) ;
  _ ← emit (EvPrint graph_elements) (Returned ()) ;
  emit (EvAddGraphElements [graph_elements])
       (add_graph_elements w [graph_elements]).

(** One run of the script. *)
Definition run_main (w : world) : outcome unit * list event := main w [].

Definition is_commit (ev : event) : bool :=
  match ev with EvAddGraphElements _ => true | _ => false end.

Definition is_agent_run (ev : event) : bool :=
  match ev with EvAgentRun _ _ => true | _ => false end.



(** The calls and prints of a run that goes all the way, in the order of
    the source. *)
Definition full_trace (w : world) (text : string) (e : element)
    (raw parsed : answer) : list event :=
  [EvNeo4jGraph "neo4j+s://your_URL" "yourUsername" "your_Password";
   EvModelCreate (environ w !! "GROQ_API_KEY");
   EvUnstructuredIO; EvKnowledgeGraphAgent;
   EvOpenRead "sample_input.txt"; EvCreateElement text "0";
   EvAgentRun e false; EvPrint raw; EvAgentRun e true; EvPrint parsed;
   EvAddGraphElements [parsed]].

(** A sample environment: the file holds the fever sentence, the agent
    answers as given, everything else succeeds. *)
Definition sample (raw parsed : outcome answer) : world :=
  {| environ := ∅;
     Neo4jGraph := λ _ _ _, Returned ();
     ModelFactory_create := λ _, Returned ();
     UnstructuredIO := Returned ();
     KnowledgeGraphAgent := Returned ();
     read_file := λ _, Returned "Patient has fever and cough.";
     create_element_from_text :=
       λ text id, Returned {| element_text := text; element_id := id |};
     kg_agent_run := λ _ parse, if parse then parsed else raw;
     add_graph_elements := λ _, Returned () |}.

End MainScript.

(** * Properties *)

(** ** The questions of the patterns *)

(** The comprehension of line 111 never raises: [p['question']] is only
    evaluated after [p.get('question')] was found non-empty. *)
Lemma extract_questions_spec (patterns : list (gmap string pyval)) :
  extract_questions patterns = Returned (nonempty_questions patterns).
Proof.
  unfold nonempty_questions.
  induction patterns as [|p ps IH]; [done|].
  cbn [extract_questions omap list_omap]. rewrite IH.
  unfold dict_get, dict_getitem, question_of.
  destruct (p !! "question") as [v|]; cbn; [|done].
  by destruct (truthy v).
Qed.

Lemma question_of_text (p : gmap string pyval) (s : string) :
  p !! "question" = Some (VStr s) →
  question_of p = if decide (s = "") then None else Some (VStr s).
Proof.
  intros Hp. unfold question_of. rewrite Hp. cbn.
  destruct (String.eqb_spec s ""); by case_decide.
Qed.

Lemma question_of_absent (p : gmap string pyval) :
  p !! "question" = None ∨ p !! "question" = Some VNone →
  question_of p = None.
Proof. unfold question_of. by intros [-> | ->]. Qed.

(** ** The paths are the graph of the function *)

Ltac run_unfold :=
  unfold process_telegram_image, process_telegram_image_M, pipeline_body,
    try_except_Exception, mbind, M_bind, bind, call, lift, mret, M_ret, ret;
  cbn [app].

Ltac run_fold w u :=
  fold (run_element_id w u); fold (run_output_text_file w u);
  fold (run_cfg w); fold (run_verifier_dir w).

Ltac path_raise c :=
  match goal with
  | e : exn |- _ =>
      destruct e; cbn; [apply path_caught | apply path_uncaught];
      try done; eapply c; eauto
  end.

Ltac split_stages :=
  repeat match goal with
         | H : setup_ok _ _ |- _ => unfold setup_ok in H
         | H : document_ok _ _ _ _ _ |- _ => destruct H as [? ?]
         | H : discovery_ok _ _ |- _ => destruct H as (? & ? & ?)
         end.

Lemma run_complete w i u : run_path w i u (process_telegram_image w i u).
Proof.
  run_unfold.
  destruct (mkdir_exist_ok w _) as [[]|e] eqn:Hmk; [|by constructor].
  run_fold w u.
  destruct (MedicalDocumentPipeline w _) as [[]|e] eqn:Hp;
    [|path_raise raises_pipeline].
  destruct (process_document w _ _ _) as [[text ge]|e] eqn:Hd;
    [|path_raise raises_document].
  assert (document_ok w i u text ge) as Hdoc by done.
  destruct (KGPatternDiscovery w _) as [[]|e] eqn:Ho;
    [|path_raise raises_open].
  destruct (discover_patterns w 3 5) as [patterns|e] eqn:Hpat;
    [|path_raise raises_discover].
  destruct (close w) as [[]|e] eqn:Hc;
    [|path_raise raises_close].
  assert (discovery_ok w patterns) as Hdis by done.
  pose proof (extract_questions_spec patterns) as Hqs. rewrite Hqs.
  destruct (nonempty_questions patterns) as [|q qs]; cbn.
  { apply path_returns; [done|]. by eapply returns_no_hypotheses. }
  destruct (HypothesisVerifier w _) as [[]|e] eqn:Hv;
    [|path_raise raises_verifier].
  destruct (verify_questions_sync w _) as [results|e] eqn:Hr;
    [|path_raise raises_verify].
  apply path_returns; [done|]. by eapply returns_success.
Qed.

Lemma run_sound w i u x : run_path w i u x → process_telegram_image w i u = x.
Proof.
  intros Hx. run_unfold. run_fold w u.
  destruct Hx as [e He|msg tr Hs Hb|msg tr Hs Hb|r tr Hs Hb];
    [by rewrite He|..];
    unfold setup_ok in Hs; rewrite Hs;
    inversion Hb; subst; split_stages;
    repeat match goal with H : _ = _ |- _ => rewrite H; clear H end; done.
Qed.

(** ** Facts on reports and traces *)

Ltac dom_report :=
  unfold success_sample, success_report, no_hypotheses_report, error_report;
  rewrite !dom_insert_L, dom_singleton_L; set_solver.

Lemma error_report_lookup msg k v :
  error_report msg !! k = Some v → v = VBool false ∨ v = VStr msg.
Proof.
  unfold error_report. intros Hk.
  apply lookup_insert_Some in Hk as [[_ <-]|[_ Hk]]; [by left|].
  apply lookup_singleton_Some in Hk as [_ <-]. by right.
Qed.

Lemma no_hypotheses_report_not_error text msg :
  no_hypotheses_report text ≠ error_report msg.
Proof.
  intros Heq.
  assert (no_hypotheses_report text !! "ocr_text"
          = error_report msg !! "ocr_text") as Hk by by rewrite Heq.
  vm_compute in Hk. discriminate.
Qed.

Lemma body_returns_shape w i u r tr :
  body_returns w i u r tr →
  (∃ text, r = no_hypotheses_report text) ∨
  (∃ qs results text, r = success_report qs results text (run_element_id w u)).
Proof. destruct 1; [left|right]; eauto. Qed.

(** ** The zero-hypotheses exit *)

(** C1, as the code has it: when the patterns give no question, the call
    returns the report of lines 115-119, whose "error" field is the
    explicit marker "No hypotheses generated from the image" and whose
    "success" flag is [False] as in a failed run; the report still differs
    from every report of the exception handler (it keeps the extracted
    text), and the verifier is neither built nor called. *)
Theorem no_hypotheses_exit w i u text ge patterns :
  setup_ok w u →
  document_ok w i u text ge →
  discovery_ok w patterns →
  nonempty_questions patterns = [] →
  ∃ tr,
    process_telegram_image w i u = (Returned (no_hypotheses_report text), tr) ∧
    invoked is_verify tr = false ∧
    no_hypotheses_report text !! "error"
      = Some (VStr "No hypotheses generated from the image") ∧
    no_hypotheses_report text !! "success" = Some (VBool false) ∧
    ∀ msg, no_hypotheses_report text ≠ error_report msg.
Proof.
  intros Hs Hdoc Hdis Hq. eexists. split; [|split; [|split; [|split]]].
  - apply run_sound, path_returns; [done|].
    eapply returns_no_hypotheses; eauto.
    by rewrite extract_questions_spec, Hq.
  - done.
  - done.
  - done.
  - intros msg. apply no_hypotheses_report_not_error.
Qed.

Lemma no_hypotheses_exit_witness :
  ∃ tr,
    process_telegram_image world_no_patterns "/tmp/photo.jpg" "42"
      = (Returned (no_hypotheses_report fever_text), tr) ∧
    invoked is_verify tr = false ∧
    no_hypotheses_report fever_text !! "error"
      = Some (VStr "No hypotheses generated from the image") ∧
    no_hypotheses_report fever_text !! "success" = Some (VBool false) ∧
    ∀ msg, no_hypotheses_report fever_text ≠ error_report msg.
Proof.
  apply (no_hypotheses_exit world_no_patterns "/tmp/photo.jpg" "42"
           fever_text VNone []).
  - reflexivity.
  - split; reflexivity.
  - repeat split; reflexivity.
  - reflexivity.
Defined.

(** C1, as stated, fails: with no pattern at all the run does not end in
    the completed status; its report has the "success" flag of a failed
    run and the caller in [__main__] prints it as an error. *)
Lemma zero_questions_not_completed :
  nonempty_questions [] = [] ∧
  ∃ r tr,
    process_telegram_image world_no_patterns "/tmp/photo.jpg" "42"
      = (Returned r, tr) ∧
    status_of_report r = failed ∧
    status_of_report r ≠ completed ∧
    r !! "success" = error_report "any failure" !! "success" ∧
    reads_as_error r = true.
Proof.
  split; [done|].
  eexists _, _. split; [vm_compute; reflexivity|].
  repeat split; done.
Qed.

(** ** The graph-construction failure *)

(** C4, as the code has it: when [process_document] (text extraction and
    graph construction in one call) raises an [Exception], the call returns
    the error report with [str(e)], a failed run; the discovery object is
    never built, [discover_patterns] and the verifier are never called.
    The report names no stage. *)
Theorem graph_failure_short_circuit w i u msg :
  setup_ok w u →
  MedicalDocumentPipeline w (run_cfg w) = Returned () →
  process_document w i (Path.to_str (run_output_text_file w u))
    (run_element_id w u) = Raised (Exc msg) →
  ∃ tr,
    process_telegram_image w i u = (Returned (error_report msg), tr) ∧
    status_of_report (error_report msg) = failed ∧
    error_report msg !! "error" = Some (VStr msg) ∧
    invoked is_discovery tr = false ∧
    invoked is_verify tr = false.
Proof.
  intros Hs Hp Hd. eexists. split.
  - apply run_sound, path_caught; [done|]. by apply raises_document.
  - repeat split; reflexivity.
Qed.

Lemma graph_failure_short_circuit_witness :
  ∃ tr,
    process_telegram_image world_graph_failure "/tmp/photo.jpg" "42"
      = (Returned (error_report "no graph elements extracted"), tr) ∧
    status_of_report (error_report "no graph elements extracted") = failed ∧
    error_report "no graph elements extracted" !! "error"
      = Some (VStr "no graph elements extracted") ∧
    invoked is_discovery tr = false ∧
    invoked is_verify tr = false.
Proof.
  apply (graph_failure_short_circuit world_graph_failure "/tmp/photo.jpg" "42");
    reflexivity.
Defined.

(** C4, as stated, fails: the report of a graph-construction failure does
    not carry the stage name; it holds the "success" flag and the message
    only, and the same report comes out when [discover_patterns] fails with
    that message. *)
Lemma graph_failure_names_no_stage :
  ∃ r tr tr',
    process_telegram_image world_graph_failure "/tmp/photo.jpg" "42"
      = (Returned r, tr) ∧
    process_telegram_image world_discovery_failure "/tmp/photo.jpg" "42"
      = (Returned r, tr') ∧
    dom r = {[ "success"; "error" ]} ∧
    r !! "error" = Some (VStr "no graph elements extracted") ∧
    ¬ carries r (VStr "graphing").
Proof.
  exists (error_report "no graph elements extracted"). eexists _, _.
  split; [vm_compute; reflexivity|].
  split; [vm_compute; reflexivity|].
  split; [dom_report|].
  split; [done|].
  intros [k Hk]. by apply error_report_lookup in Hk as [?|?].
Qed.

(** ** What a report holds *)

(** C9: every report has a boolean "success"; it has "error" exactly when
    "success" is [False]; with "success" [True] it has "hypotheses",
    "verification_results", "ocr_text" and "element_id". *)
Theorem report_shape w i u r tr :
  process_telegram_image w i u = (Returned r, tr) →
  ∃ b : bool,
    r !! "success" = Some (VBool b) ∧
    (is_Some (r !! "error") ↔ b = false) ∧
    (b = true →
     is_Some (r !! "hypotheses") ∧ is_Some (r !! "verification_results") ∧
     is_Some (r !! "ocr_text") ∧ is_Some (r !! "element_id")).
Proof.
  intros Hrun. pose proof (run_complete w i u) as Hp. rewrite Hrun in Hp.
  inversion Hp as [|msg tr0 _ _|?|r0 tr0 _ Hb]; subst.
  - exists false. repeat split; (done || by eexists).
  - apply body_returns_shape in Hb as [[text ->]|(qs & rs & text & ->)].
    + exists false. repeat split; (done || by eexists).
    + exists true. split; [done|]. split.
      * split; [intros [v Hv]; discriminate Hv|done].
      * intros _. repeat split; by eexists.
Qed.

Lemma report_shape_witness :
  ∃ b : bool,
    success_sample !! "success" = Some (VBool b) ∧
    (is_Some (success_sample !! "error") ↔ b = false) ∧
    (b = true →
     is_Some (success_sample !! "hypotheses") ∧
     is_Some (success_sample !! "verification_results") ∧
     is_Some (success_sample !! "ocr_text") ∧
     is_Some (success_sample !! "element_id")).
Proof.
  eapply (report_shape world_success "/tmp/photo.jpg" "42" success_sample).
  vm_compute. reflexivity.
Defined.

(** C2, as the code has it: a report that comes back is one of three.
    The success report holds the flag, the run identifier, the extracted
    text, all the questions and all the verification results; the
    zero-hypotheses report holds the flag, its reason and the extracted
    text; the report of the exception handler holds the flag and [str(e)]
    of the exception the body raised.  No report has a field for a length
    or a count. *)
Theorem report_contents w i u r tr :
  process_telegram_image w i u = (Returned r, tr) →
  (∃ text ge patterns results,
     document_ok w i u text ge ∧ discovery_ok w patterns ∧
     verify_questions_sync w (nonempty_questions patterns) = Returned results ∧
     r = success_report (nonempty_questions patterns) results text
           (element_id_of u (now w)) ∧
     dom r = {[ "success"; "hypotheses"; "verification_results"; "ocr_text";
                "element_id" ]}) ∨
  (∃ text ge,
     document_ok w i u text ge ∧ r = no_hypotheses_report text ∧
     dom r = {[ "success"; "error"; "ocr_text" ]}) ∨
  (∃ msg,
     body_raises w i u (Exc msg) tr ∧ r = error_report msg ∧
     dom r = {[ "success"; "error" ]}).
Proof.
  intros Hrun. pose proof (run_complete w i u) as Hp. rewrite Hrun in Hp.
  inversion Hp as [|msg tr0 _ Hb|?|r0 tr0 _ Hb]; subst.
  - right; right. exists msg. do 2 (split; [done|]). dom_report.
  - destruct Hb as [text ge patterns Hdoc Hdis Hq
                   |text ge patterns q qs results Hdoc Hdis Hq Hv Hr].
    + right; left. exists text, ge. do 2 (split; [done|]). dom_report.
    + left. exists text, ge, patterns, results.
      rewrite extract_questions_spec in Hq. injection Hq as Hq.
      rewrite Hq. do 4 (split; [done|]). dom_report.
Qed.

Lemma report_contents_witness :
  (∃ text ge patterns results,
     document_ok world_success "/tmp/photo.jpg" "42" text ge ∧
     discovery_ok world_success patterns ∧
     verify_questions_sync world_success (nonempty_questions patterns)
       = Returned results ∧
     success_sample = success_report (nonempty_questions patterns) results text
           (element_id_of "42" (now world_success)) ∧
     dom success_sample
       = {[ "success"; "hypotheses"; "verification_results"; "ocr_text";
            "element_id" ]}) ∨
  (∃ text ge,
     document_ok world_success "/tmp/photo.jpg" "42" text ge ∧
     success_sample = no_hypotheses_report text ∧
     dom success_sample = {[ "success"; "error"; "ocr_text" ]}) ∨
  (∃ msg,
     body_raises world_success "/tmp/photo.jpg" "42" (Exc msg)
       (process_telegram_image world_success "/tmp/photo.jpg" "42").2 ∧
     success_sample = error_report msg ∧
     dom success_sample = {[ "success"; "error" ]}).
Proof.
  apply (report_contents world_success "/tmp/photo.jpg" "42" success_sample).
  vm_compute. reflexivity.
Defined.

(** C2, as stated, fails: the report of a failed run holds the "success"
    flag and the message and nothing else, so neither the run identifier
    nor the extracted text or its length; and the report of a successful
    run over five patterns has no field that holds their count. *)
Lemma failure_report_lacks_run_data :
  ∃ r tr r' tr',
    process_telegram_image world_graph_failure "/tmp/photo.jpg" "42"
      = (Returned r, tr) ∧
    dom r = {[ "success"; "error" ]} ∧
    r !! "element_id" = None ∧
    ¬ carries r (VStr (element_id_of "42" (now world_graph_failure))) ∧
    process_telegram_image world_success "/tmp/photo.jpg" "42"
      = (Returned r', tr') ∧
    List.length fever_patterns = 5 ∧
    dom r' = {[ "success"; "hypotheses"; "verification_results"; "ocr_text";
                "element_id" ]}.
Proof.
  exists (error_report "no graph elements extracted"). eexists.
  exists success_sample. eexists.
  split; [vm_compute; reflexivity|].
  split; [dom_report|].
  split; [done|].
  split.
  { intros [k Hk]. apply error_report_lookup in Hk as [Hk|Hk];
      [discriminate Hk|]. vm_compute in Hk. discriminate Hk. }
  split; [vm_compute; reflexivity|].
  split; [done|]. dom_report.
Qed.

(** ** The questions handed to the verifier *)

(** C7: whenever the verifier is called, the list it is given is exactly
    the non-empty question values of the discovered patterns, in pattern
    order (and that list is not empty). *)
Theorem questions_handed_to_verify w i u x tr qs :
  process_telegram_image w i u = (x, tr) →
  EvVerify qs ∈ tr →
  ∃ patterns,
    discover_patterns w 3 5 = Returned patterns ∧
    qs = nonempty_questions patterns ∧
    qs ≠ [].
Proof.
  intros Hrun Hev. pose proof (run_complete w i u) as Hp. rewrite Hrun in Hp.
  assert (∀ e, body_raises w i u e tr →
    ∃ patterns, discover_patterns w 3 5 = Returned patterns ∧
                qs = nonempty_questions patterns ∧ qs ≠ []) as Hraise.
  { intros e Hb. destruct Hb;
      repeat (apply elem_of_cons in Hev as [Hev|Hev]; [try discriminate Hev|]);
      try (by apply elem_of_nil in Hev).
    injection Hev as ->. split_stages. eexists. split; [done|].
    rewrite extract_questions_spec in *. by simplify_eq. }
  inversion Hp as [e He|msg tr0 _ Hb|msg tr0 _ Hb|r0 tr0 _ Hb]; subst.
  - apply list_elem_of_singleton in Hev. discriminate Hev.
  - by eapply Hraise.
  - by eapply Hraise.
  - destruct Hb;
      repeat (apply elem_of_cons in Hev as [Hev|Hev]; [try discriminate Hev|]);
      try (by apply elem_of_nil in Hev).
    injection Hev as ->. split_stages. eexists. split; [done|].
    rewrite extract_questions_spec in *. by simplify_eq.
Qed.

Lemma questions_handed_to_verify_witness :
  ∃ patterns,
    discover_patterns world_success 3 5 = Returned patterns ∧
    [VStr "Does fever co-occur with cough?";
     VStr "Is cough a symptom of the patient?"] = nonempty_questions patterns ∧
    [VStr "Does fever co-occur with cough?";
     VStr "Is cough a symptom of the patient?"] ≠ [].
Proof.
  eapply (questions_handed_to_verify world_success "/tmp/photo.jpg" "42").
  - vm_compute. reflexivity.
  - do 7 apply list_elem_of_further. apply list_elem_of_here.
Defined.

(** ** What reaches the caller as an exception *)

(** C3 at a failing input: on a checkout where [chronos_output] does not
    exist yet, the user identifier "a/b" makes line 40 create
    [chronos_output/telegram_a]; [mkdir] raises, line 40 is outside the
    [try], and the exception reaches the caller after this one call. *)
Theorem setup_failure_propagates :
  process_telegram_image world_success "/tmp/photo.jpg" "a/b"
  = (Raised (Exc "[Errno 2] No such file or directory"),
     [EvMkdir [""; "srv"; "chronos"; "chronos_output"; "telegram_a"]]).
Proof. vm_compute. reflexivity. Qed.

(** The same environment with a user identifier that has no "/" runs to
    the success report. *)
Lemma setup_succeeds_on_plain_user :
  (process_telegram_image world_success "/tmp/photo.jpg" "42").1
  = Returned success_sample.
Proof. vm_compute. reflexivity. Qed.



(** X2: once line 40 has returned, every [Exception] a collaborator raises
    in the body of the [try] comes back as the error report with [str(e)]. *)
Theorem stage_exception_is_reported w i u msg tr :
  setup_ok w u →
  body_raises w i u (Exc msg) tr →
  process_telegram_image w i u = (Returned (error_report msg), tr) ∧
  error_report msg !! "success" = Some (VBool false) ∧
  error_report msg !! "error" = Some (VStr msg).
Proof.
  intros Hs Hb. split; [|done]. by apply run_sound, path_caught.
Qed.

Lemma stage_exception_is_reported_witness :
  process_telegram_image world_discovery_failure "/tmp/photo.jpg" "42"
  = (Returned (error_report "no graph elements extracted"),
     [ev_mkdir world_discovery_failure "42";
      ev_pipeline world_discovery_failure;
      ev_document world_discovery_failure "/tmp/photo.jpg" "42";
      ev_open world_discovery_failure; ev_discover]) ∧
  error_report "no graph elements extracted" !! "success" = Some (VBool false) ∧
  error_report "no graph elements extracted" !! "error"
    = Some (VStr "no graph elements extracted").
Proof.
  apply (stage_exception_is_reported world_discovery_failure
           "/tmp/photo.jpg" "42").
  - reflexivity.
  - eapply (raises_discover _ _ _ fever_text VNone); [split|..]; reflexivity.
Defined.

(** ** The graph-store session of the discovery stage *)

(** C6 at a failing input: [discover_patterns] raises; the discovery object
    was built (its session opened) and [close] is never called on it. *)
Theorem discovery_failure_leaves_session_open :
  ∃ r tr,
    process_telegram_image world_discovery_failure "/tmp/photo.jpg" "42"
      = (Returned r, tr) ∧
    r = error_report "no graph elements extracted" ∧
    invoked is_discovery_open tr = true ∧
    invoked is_discovery_close tr = false.
Proof. eexists _, _. split; [vm_compute; reflexivity|]. by repeat split. Qed.

(** X3: [close] is called exactly on the paths where [discover_patterns]
    returned. *)
Theorem close_iff_discover_returned w i u x tr :
  process_telegram_image w i u = (x, tr) →
  invoked is_discovery_close tr = true ↔
  ∃ patterns, discover_patterns w 3 5 = Returned patterns ∧ ev_discover ∈ tr.
Proof.
  intros Hrun. pose proof (run_complete w i u) as Hp. rewrite Hrun in Hp.
  assert (∀ e, body_raises w i u e tr →
    invoked is_discovery_close tr = true ↔
    ∃ patterns, discover_patterns w 3 5 = Returned patterns ∧
                ev_discover ∈ tr) as Hraise.
  { intros e Hb. destruct Hb; split_stages; cbn; split;
      try discriminate; try (intros _; eexists; split; [eassumption|]);
      try (intros (ps & Hps & Hin));
      try congruence;
      repeat (apply elem_of_cons in Hin as [Hin|Hin]; [try discriminate Hin|]);
      try (by apply elem_of_nil in Hin);
      try (do 4 apply list_elem_of_further; apply list_elem_of_here). }
  inversion Hp as [e He|msg tr0 _ Hb|msg tr0 _ Hb|r0 tr0 _ Hb]; subst.
  - cbn. split; [discriminate|]. intros (ps & _ & Hin).
    apply list_elem_of_singleton in Hin. discriminate Hin.
  - by eapply Hraise.
  - by eapply Hraise.
  - destruct Hb; split_stages; cbn; (split; [|done]); intros _;
      eexists; (split; [eassumption|]);
      do 4 apply list_elem_of_further; apply list_elem_of_here.
Qed.

Lemma close_iff_discover_returned_witness :
  invoked is_discovery_close
    (process_telegram_image world_no_patterns "/tmp/photo.jpg" "42").2 = true ↔
  ∃ patterns, discover_patterns world_no_patterns 3 5 = Returned patterns ∧
    ev_discover ∈ (process_telegram_image world_no_patterns "/tmp/photo.jpg" "42").2.
Proof.
  apply (close_iff_discover_returned world_no_patterns "/tmp/photo.jpg" "42"
           (process_telegram_image world_no_patterns "/tmp/photo.jpg" "42").1).
  by destruct (process_telegram_image world_no_patterns "/tmp/photo.jpg" "42").
Defined.

(** ** The run identifier *)

Example element_id_sample :
  element_id_of "test_user" start = "telegram_test_user_20240307_090542".
Proof. reflexivity. Qed.

Example output_text_file_sample :
  Path.to_str (run_output_text_file world_success "42")
  = "/srv/chronos/chronos_output/telegram_42_20240307_090542_text.txt".
Proof. reflexivity. Qed.

Example mkdir_target_with_slash :
  Path.parent (run_output_text_file world_success "a/b")
  = [""; "srv"; "chronos"; "chronos_output"; "telegram_a"].
Proof. reflexivity. Qed.

(** C10: the run identifier is "telegram_", the user identifier, "_" and
    the start time to the second, and it is the "element_id" of a success
    report; so two calls of one user within one second get the same
    identifier, and two such calls with different start times exist. *)
Theorem run_identifier_not_unique :
  (∀ u t, element_id_of u t
          = "telegram_" +:+ u +:+ "_" +:+ strftime_Ymd_HMS t) ∧
  (∀ w i u r tr,
     process_telegram_image w i u = (Returned r, tr) →
     r !! "success" = Some (VBool true) →
     r !! "element_id" = Some (VStr (element_id_of u (now w)))) ∧
  (∀ u t1 t2, same_second t1 t2 → element_id_of u t1 = element_id_of u t2) ∧
  (∃ r1 tr1 r2 tr2,
     now world_success ≠ now (a_moment_later world_success) ∧
     process_telegram_image world_success "/tmp/photo.jpg" "42"
       = (Returned r1, tr1) ∧
     process_telegram_image (a_moment_later world_success) "/tmp/scan.jpg" "42"
       = (Returned r2, tr2) ∧
     r1 !! "element_id" = Some (VStr "telegram_42_20240307_090542") ∧
     r2 !! "element_id" = Some (VStr "telegram_42_20240307_090542")).
Proof.
  split; [done|]. split; [|split].
  - intros w i u r tr Hrun Hok.
    pose proof (run_complete w i u) as Hp. rewrite Hrun in Hp.
    inversion Hp as [|msg tr0 _ _|?|r0 tr0 _ Hb]; subst;
      [discriminate Hok|].
    apply body_returns_shape in Hb as [[text ->]|(qs & rs & text & ->)];
      [discriminate Hok|done].
  - intros u [y1 m1 d1 h1 mi1 s1 us1] [y2 m2 d2 h2 mi2 s2 us2].
    unfold same_second; cbn. intros (-> & -> & -> & -> & -> & ->). done.
  - eexists _, _, _, _. split; [discriminate|].
    split; [vm_compute; reflexivity|].
    split; [vm_compute; reflexivity|]. done.
Qed.

(** ** The verification stage keeps the order of the questions *)

Section VerifyFacts.
Import Verifier.
Variable verify_one : string → outcome (Verdict * list string).

Lemma decide_snoc {A} (i j : nat) (order : list nat) (x y : A) :
  i ≠ j →
  (if decide (i ∈ (order ++ [j])%list) then x else y)
  = (if decide (i ∈ order) then x else y).
Proof.
  intros Hne.
  destruct (decide (i ∈ order)) as [Hin|Hin],
           (decide (i ∈ (order ++ [j])%list)) as [Hin'|Hin'];
    try done; exfalso.
  - apply Hin', elem_of_app. by left.
  - apply elem_of_app in Hin' as [?|Hj]; [done|].
    by apply list_elem_of_singleton in Hj.
Qed.

(** After the calls of [completion_order] have completed, the slot of a
    question holds its result if its call is among them and is still
    empty otherwise. *)
Lemma run_batch_lookup (questions : list string) (completion_order : list nat)
    (i : nat) (q : string) :
  questions !! i = Some q →
  run_batch verify_one questions completion_order !! i
  = Some (if decide (i ∈ completion_order)
          then Some (answered verify_one q) else None).
Proof.
  intros Hq. unfold run_batch.
  induction completion_order as [|j order IH] using rev_ind.
  - cbn. rewrite lookup_replicate_2; [|by eapply lookup_lt_Some].
    by rewrite decide_False by apply not_elem_of_nil.
  - rewrite foldl_snoc. unfold complete at 1.
    destruct (questions !! j) as [q'|] eqn:Hj.
    + destruct (decide (j = i)) as [->|Hne].
      * rewrite list_lookup_insert_eq.
        { rewrite decide_True by (apply elem_of_app; right; by left).
          by simplify_eq. }
        apply lookup_lt_is_Some. rewrite IH. by eexists.
      * rewrite list_lookup_insert_ne by done. rewrite IH. f_equal.
        by rewrite decide_snoc.
    + rewrite IH. f_equal.
      assert (i ≠ j) by congruence. by rewrite decide_snoc.
Qed.

Lemma run_batch_length (questions : list string) (completion_order : list nat) :
  List.length (run_batch verify_one questions completion_order)
  = List.length questions.
Proof.
  unfold run_batch.
  induction completion_order as [|j order IH] using rev_ind.
  - apply length_replicate.
  - rewrite foldl_snoc. unfold complete at 1.
    destruct (questions !! j); [by rewrite length_insert|done].
Qed.

Lemma question_answered (q : string) : question (answered verify_one q) = q.
Proof. unfold answered. by destruct (verify_one q) as [[v ev]|e]. Qed.

(** C5: [verify] returns one result per question, in the order of the
    questions, whatever the order in which the calls complete, whichever
    of them fail and whichever never finish: result [i] is the result of
    question [i] if its call completed and its cancellation entry
    otherwise. *)
Theorem verify_preserves_order (questions : list string)
    (completion_order : list nat) :
  List.length (verify verify_one questions completion_order)
    = List.length questions ∧
  question <$> verify verify_one questions completion_order = questions ∧
  ∀ i q, questions !! i = Some q →
    verify verify_one questions completion_order !! i
    = Some (if decide (i ∈ completion_order)
            then answered verify_one q else unfinished q).
Proof.
  assert (∀ i q, questions !! i = Some q →
    verify verify_one questions completion_order !! i
    = Some (if decide (i ∈ completion_order)
            then answered verify_one q else unfinished q)) as Hlookup.
  { intros i q Hq. unfold verify.
    rewrite lookup_zip_with, Hq. cbn.
    rewrite (run_batch_lookup _ _ _ _ Hq). cbn. by case_decide. }
  assert (List.length (verify verify_one questions completion_order)
          = List.length questions) as Hlen.
  { unfold verify. rewrite length_zip_with_l_eq; [done|].
    by rewrite run_batch_length. }
  split; [done|]. split; [|done].
  apply list_eq. intros i. rewrite list_lookup_fmap.
  destruct (questions !! i) as [q|] eqn:Hq.
  - rewrite (Hlookup _ _ Hq). cbn. f_equal.
    case_decide; [apply question_answered|done].
  - apply lookup_ge_None in Hq.
    rewrite (proj2 (lookup_ge_None _ _)); [done|]. by rewrite Hlen.
Qed.

End VerifyFacts.

(** Four questions, the third call fails, the calls complete as 2, 0, 3, 1
    (with the first one reported twice): the results come in the order of
    the questions and the failure stays in its own result. *)
Example verify_out_of_order :
  let verify_one q :=
    if String.eqb q "q2" then Raised (Exc "timeout")
    else Returned (Verifier.supported, [q]) in
  Verifier.verify verify_one ["q0"; "q1"; "q2"; "q3"] [2; 0; 3; 1; 0]
  = [ Verifier.Build_VerificationResult "q0" (Some Verifier.supported) ["q0"] None;
      Verifier.Build_VerificationResult "q1" (Some Verifier.supported) ["q1"] None;
      Verifier.Build_VerificationResult "q2" None [] (Some "timeout");
      Verifier.Build_VerificationResult "q3" (Some Verifier.supported) ["q3"] None ].
Proof. reflexivity. Qed.

(** ** Committing twice to the graph store *)

Section StoreFacts.
Import GraphStore.
Context {K : Type} `{Countable K} (identity : Node → K).

Lemma merge_into_assoc {X : Type} `{Countable X}
    (a b c : gmap X (gmap string string)) :
  merge_into a (merge_into b c) = merge_into (merge_into a b) c.
Proof.
  apply map_eq. intros k. unfold merge_into. rewrite !lookup_union_with.
  destruct (a !! k), (b !! k), (c !! k); cbn; try done.
  by rewrite (assoc_L (∪)).
Qed.

Lemma merge_into_idemp {X : Type} `{Countable X}
    (a : gmap X (gmap string string)) :
  merge_into a a = a.
Proof.
  apply map_eq. intros k. unfold merge_into. rewrite lookup_union_with.
  destruct (a !! k); cbn; [|done]. by rewrite (idemp_L (∪)).
Qed.

Lemma merge_into_empty {X : Type} `{Countable X}
    (a : gmap X (gmap string string)) :
  merge_into ∅ a = a.
Proof.
  apply map_eq. intros k. unfold merge_into.
  rewrite lookup_union_with, lookup_empty. by destruct (a !! k).
Qed.

Lemma merge_store_assoc (a b c : store (K:=K)) :
  merge_store a (merge_store b c) = merge_store (merge_store a b) c.
Proof.
  unfold merge_store; cbn [entities edges].
  f_equal; apply merge_into_assoc.
Qed.

Lemma merge_store_idemp (a : store (K:=K)) : merge_store a a = a.
Proof.
  destruct a as [e r]. unfold merge_store; cbn [entities edges].
  f_equal; apply merge_into_idemp.
Qed.

Lemma merges_id : merges (λ s : store (K:=K), s).
Proof.
  exists empty_store. intros [e r].
  unfold merge_store, empty_store; cbn [entities edges].
  f_equal; symmetry; apply merge_into_empty.
Qed.

Lemma merges_compose (f g : store (K:=K) → store (K:=K)) :
  merges f → merges g → merges (λ s, g (f s)).
Proof.
  intros [d Hd] [d' Hd']. exists (merge_store d' d). intros s.
  by rewrite Hd, Hd', merge_store_assoc.
Qed.

Lemma merges_foldl {A} (step : store (K:=K) → A → store (K:=K)) (l : list A) :
  (∀ x, merges (λ s, step s x)) → merges (λ s, foldl step s l).
Proof.
  intros Hstep. induction l as [|x l IH] using rev_ind; [apply merges_id|].
  destruct IH as [d Hd]. destruct (Hstep x) as [d' Hd'].
  exists (merge_store d' d). intros s.
  by rewrite foldl_snoc, Hd', Hd, merge_store_assoc.
Qed.

Lemma merges_node n : merges (λ s, merge_node identity s n).
Proof.
  exists {| entities := {[ identity n := node_properties n ]}; edges := ∅ |}.
  intros s. unfold merge_node, merge_store; cbn [entities edges].
  f_equal. symmetry. apply merge_into_empty.
Qed.

Lemma merges_relationship r : merges (λ s, merge_relationship identity s r).
Proof.
  destruct (merges_compose _ _ (merges_node (subj r)) (merges_node (obj r)))
    as [d Hd].
  exists (merge_store
            {| entities := ∅;
               edges := {[ (identity (subj r), rel_type r, identity (obj r))
                           := rel_properties r ]} |} d).
  intros s. unfold merge_relationship. cbn zeta. rewrite Hd.
  unfold merge_store; cbn [entities edges].
  f_equal; [by rewrite merge_into_empty | apply merge_into_assoc].
Qed.

Lemma merges_commit ge : merges (λ s, commit identity s ge).
Proof.
  unfold commit.
  apply (merges_compose (λ s, foldl (merge_node identity) s (nodes ge))
                        (λ s, foldl (merge_relationship identity) s
                                    (relationships ge))).
  - apply merges_foldl, merges_node.
  - apply merges_foldl, merges_relationship.
Qed.

Lemma merges_twice (f : store (K:=K) → store (K:=K)) s :
  merges f → f (f s) = f s.
Proof.
  intros [d Hd]. by rewrite !Hd, merge_store_assoc, merge_store_idemp.
Qed.

(** C8: with entities stored under an identity that is a function of the
    node, committing the same graph elements a second time leaves the
    store as the first commit left it: the same entities, the same
    relationships, the same properties, so no entity twice.  The same
    holds for the single commit of main.py. *)
Theorem commit_twice_same_graph (s : store (K:=K))
    (graph_elements : list GraphElement) (ge : GraphElement) :
  add_graph_elements identity
    (add_graph_elements identity s graph_elements) graph_elements
  = add_graph_elements identity s graph_elements ∧
  main_commit identity (main_commit identity s ge) ge
  = main_commit identity s ge ∧
  size (entities (add_graph_elements identity
                    (add_graph_elements identity s graph_elements)
                    graph_elements))
  = size (entities (add_graph_elements identity s graph_elements)).
Proof.
  assert (∀ l s0, add_graph_elements identity
                    (add_graph_elements identity s0 l) l
                  = add_graph_elements identity s0 l) as Hidem.
  { intros l s0.
    apply (merges_twice (λ s, add_graph_elements identity s l)).
    apply merges_foldl, merges_commit. }
  split; [apply Hidem|]. split; [apply Hidem|]. by rewrite Hidem.
Qed.

End StoreFacts.

(** Two spellings of one symptom and a patient linked to it: one entity
    per type and normalized name, after one commit and after two. *)
Example fever_committed_twice :
  let fever := GraphStore.Build_Node "fever" "Symptom" ∅ in
  let Fever := GraphStore.Build_Node "Fever" "Symptom" {[ "onset" := "day 1" ]} in
  let patient := GraphStore.Build_Node "Patient" "Patient" ∅ in
  let ge := GraphStore.Build_GraphElement [fever; Fever; patient]
              [GraphStore.Build_Relationship patient Fever "HAS_SYMPTOM" ∅] in
  let once := GraphStore.main_commit GraphStore.type_and_name
                GraphStore.empty_store ge in
  let twice := GraphStore.main_commit GraphStore.type_and_name once ge in
  size (GraphStore.entities once) = 2 ∧ size (GraphStore.entities twice) = 2 ∧
  size (GraphStore.edges twice) = 1.
Proof. vm_compute. done. Qed.

(** With a run-local counter as identity the second commit adds every
    node again. *)
Example counter_identity_duplicates :
  let fever := GraphStore.Build_Node "fever" "Symptom" ∅ in
  let patient := GraphStore.Build_Node "Patient" "Patient" ∅ in
  let once := GraphStore.counter_commit (0, ∅) [fever; patient] in
  let twice := GraphStore.counter_commit once [fever; patient] in
  size once.2 = 2 ∧ size twice.2 = 4.
Proof. vm_compute. done. Qed.

(** * Further properties of the code *)

(** ** The comprehension of line 111 *)

(** X4: the questions of two batches of patterns are the questions of the
    first followed by those of the second. *)
Theorem extract_questions_app (ps1 ps2 : list (gmap string pyval)) :
  ∃ qs1 qs2,
    extract_questions ps1 = Returned qs1 ∧
    extract_questions ps2 = Returned qs2 ∧
    extract_questions (ps1 ++ ps2)%list = Returned (qs1 ++ qs2)%list.
Proof.
  exists (nonempty_questions ps1), (nonempty_questions ps2).
  rewrite !extract_questions_spec. repeat split.
  unfold nonempty_questions. by rewrite omap_app.
Qed.

(** X5: a value is among the extracted questions exactly when it is the
    "question" of some pattern and Python counts it as true; so no empty
    question is ever extracted. *)
Theorem extract_questions_elem (patterns : list (gmap string pyval)) :
  ∃ qs,
    extract_questions patterns = Returned qs ∧
    ∀ q, q ∈ qs ↔
         ∃ p, p ∈ patterns ∧ p !! "question" = Some q ∧ truthy q = true.
Proof.
  exists (nonempty_questions patterns). split; [apply extract_questions_spec|].
  intros q. unfold nonempty_questions. rewrite list_elem_of_omap.
  split.
  - intros (p & Hp & Hq). exists p. split; [done|].
    unfold question_of in Hq.
    destruct (p !! "question") as [v|]; [|done].
    destruct (truthy v) eqn:Hv; [|done]. by simplify_eq.
  - intros (p & Hp & Hq & Hv). exists p. split; [done|].
    unfold question_of. by rewrite Hq, Hv.
Qed.

(** X6: there is one question per pattern whose "question" counts as
    true, duplicates included, so never more questions than patterns. *)
Theorem extract_questions_length (patterns : list (gmap string pyval)) :
  ∃ qs,
    extract_questions patterns = Returned qs ∧
    List.length qs
    = List.length (List.filter (λ p, truthy (dict_get p "question")) patterns) ∧
    (List.length qs ≤ List.length patterns)%nat.
Proof.
  exists (nonempty_questions patterns). split; [apply extract_questions_spec|].
  assert (List.length (nonempty_questions patterns)
    = List.length (List.filter (λ p, truthy (dict_get p "question")) patterns))
    as Hlen.
  { unfold nonempty_questions.
    induction patterns as [|p ps IH]; [done|].
    cbn [omap list_omap List.filter]. unfold question_of at 1, dict_get at 1.
    destruct (p !! "question") as [v|]; cbn; [|done].
    destruct (truthy v); cbn; by rewrite ?IH. }
  split; [done|]. rewrite Hlen. apply List.filter_length_le.
Qed.

(** X7: only the "question" field of a pattern matters: setting or
    removing any other field of every pattern changes nothing. *)
Theorem extract_questions_other_field (k : string) (v : pyval)
    (patterns : list (gmap string pyval)) :
  k ≠ "question" →
  extract_questions (insert k v <$> patterns) = extract_questions patterns ∧
  extract_questions (delete k <$> patterns) = extract_questions patterns.
Proof.
  intros Hk. rewrite !extract_questions_spec. unfold nonempty_questions.
  split; f_equal; induction patterns as [|p ps IH]; try done;
    cbn [fmap list_fmap omap list_omap]; rewrite IH; unfold question_of.
  - by rewrite lookup_insert_ne.
  - by rewrite lookup_delete_ne.
Qed.

Lemma extract_questions_other_field_witness :
  extract_questions (insert "support_count" (VInt 9) <$> fever_patterns)
    = extract_questions fever_patterns ∧
  extract_questions (delete "support_count" <$> fever_patterns)
    = extract_questions fever_patterns.
Proof. apply (extract_questions_other_field "support_count"). done. Defined.

(** X8: no question comes out exactly when no pattern has a "question"
    that counts as true. *)
Theorem extract_questions_nil (patterns : list (gmap string pyval)) :
  extract_questions patterns = Returned [] ↔
  Forall (λ p, truthy (dict_get p "question") = false) patterns.
Proof.
  rewrite extract_questions_spec. unfold nonempty_questions.
  induction patterns as [|p ps IH]; [by split; [constructor|]|].
  cbn [omap list_omap]. unfold question_of at 1, dict_get.
  rewrite Forall_cons.
  destruct (p !! "question") as [v|]; cbn.
  - destruct (truthy v); cbn.
    + split; [intros Heq; simplify_eq|by intros [? _]].
    + rewrite <- IH. split; [done|by intros [_ ?]].
  - rewrite <- IH. split; [done|by intros [_ ?]].
Qed.

(** ** The order of the calls *)


(** ** When a run succeeds *)


(** ** Run identifiers can be read back *)

Lemma digit_inj (a b : nat) : digit a = digit b → a mod 10 = b mod 10.
Proof.
  unfold digit. intros Hd. apply (f_equal nat_of_ascii) in Hd.
  pose proof (Nat.mod_upper_bound a 10 ltac:(lia)).
  pose proof (Nat.mod_upper_bound b 10 ltac:(lia)).
  rewrite !nat_ascii_embedding in Hd by lia. lia.
Qed.

Lemma pad2_digits (n m : nat) :
  (n < 100)%nat → (m < 100)%nat →
  digit (n / 10) = digit (m / 10) → digit n = digit m → n = m.
Proof.
  intros Hn Hm H1%digit_inj H0%digit_inj.
  pose proof (Nat.div_mod_eq n 10). pose proof (Nat.div_mod_eq m 10).
  rewrite !Nat.mod_small in H1
    by (apply Nat.Div0.div_lt_upper_bound; lia).
  lia.
Qed.

Lemma pad4_digits (n m : nat) :
  (n < 10 * 1000)%nat → (m < 10 * 1000)%nat →
  digit (n / 1000) = digit (m / 1000) → digit (n / 100) = digit (m / 100) →
  digit (n / 10) = digit (m / 10) → digit n = digit m → n = m.
Proof.
  intros Hn Hm H3%digit_inj H2%digit_inj H1%digit_inj H0%digit_inj.
  rewrite !Nat.mod_small in H3
    by (apply Nat.Div0.div_lt_upper_bound; lia).
  pose proof (Nat.div_mod_eq n 10). pose proof (Nat.div_mod_eq m 10).
  pose proof (Nat.div_mod_eq (n / 10) 10).
  pose proof (Nat.div_mod_eq (m / 10) 10).
  pose proof (Nat.div_mod_eq (n / 100) 10).
  pose proof (Nat.div_mod_eq (m / 100) 10).
  rewrite !Nat.Div0.div_div in *.
  change (10 * 10) with 100 in *. change (100 * 10) with 1000 in *.
  lia.
Qed.

Lemma strftime_inj (t1 t2 : datetime) :
  valid_datetime t1 → valid_datetime t2 →
  strftime_Ymd_HMS t1 = strftime_Ymd_HMS t2 → same_second t1 t2.
Proof.
  destruct t1 as [y1 m1 d1 h1 mi1 s1 us1], t2 as [y2 m2 d2 h2 mi2 s2 us2].
  unfold valid_datetime, same_second; cbn [year month day hour minute second].
  intros (? & ? & ? & ? & ? & ?) (? & ? & ? & ? & ? & ?) Heq.
  unfold strftime_Ymd_HMS, pad4, pad2 in Heq.
  cbn [String.append year month day hour minute second] in Heq.
  injection Heq as ?.
  split; [apply pad4_digits; (done || lia)|].
  repeat split; apply pad2_digits; (done || lia).
Qed.

Lemma strftime_length t : String.length (strftime_Ymd_HMS t) = 15.
Proof. done. Qed.

Lemma string_app_inj_length (a a' b b' : string) :
  String.length a = String.length a' → a +:+ b = a' +:+ b' → a = a' ∧ b = b'.
Proof.
  revert a'. induction a as [|c a IH]; intros [|c' a'];
    cbn [String.append String.length]; try done.
  intros [= Hlen] [= -> Heq]. destruct (IH _ Hlen Heq) as [-> ->]. done.
Qed.

Lemma string_app_length (a b : string) :
  String.length (a +:+ b) = String.length a + String.length b.
Proof.
  induction a as [|c a IH]; [done|].
  change (S (String.length (a +:+ b)) = S (String.length a + String.length b)).
  by f_equal.
Qed.

(** X11: for clock readings in range, two runs get the same identifier
    only if they are of the same user and start within the same second
    (the converse of the collision of C10): the user identifier and the
    second can be read back from the identifier. *)
Theorem element_id_inj u1 u2 t1 t2 :
  valid_datetime t1 → valid_datetime t2 →
  element_id_of u1 t1 = element_id_of u2 t2 →
  u1 = u2 ∧ same_second t1 t2.
Proof.
  intros Hv1 Hv2 Heq. unfold element_id_of in Heq. cbn zeta in Heq.
  assert (String.length u1 = String.length u2) as Hlen.
  { apply (f_equal String.length) in Heq.
    rewrite !string_app_length, !strftime_length in Heq. cbn in Heq. lia. }
  apply string_app_inj_length in Heq as [_ Heq]; [|done].
  apply string_app_inj_length in Heq as [-> Heq]; [|done].
  split; [done|]. apply strftime_inj; [done..|].
  by apply string_app_inj_length in Heq as [_ Heq].
Qed.

Lemma element_id_inj_witness :
  "42" = "42" ∧ same_second start (now (a_moment_later world_success)).
Proof.
  apply (element_id_inj "42" "42" start (now (a_moment_later world_success))).
  - unfold valid_datetime; cbn. lia.
  - unfold valid_datetime; cbn. lia.
  - reflexivity.
Defined.

(** ** Where the text file goes *)

Lemma split_slash_free (acc s : string) :
  slash_free s = true → Path.split_slash acc s = [acc +:+ s].
Proof.
  revert acc. induction s as [|c s IH]; intros acc Hs.
  - cbn [Path.split_slash]. f_equal.
    induction acc as [|a acc IHa]; [done|].
    change (String a acc = String a (acc +:+ "")). by f_equal.
  - cbn [slash_free] in Hs. apply andb_true_iff in Hs as [Hc Hs].
    cbn [Path.split_slash]. apply negb_true_iff in Hc. rewrite Hc.
    rewrite IH by done. f_equal.
    induction acc as [|a acc IHa]; [done|].
    change (String a ((acc +:+ String c "") +:+ s)
            = String a (acc +:+ String c s)). by f_equal.
Qed.

Lemma slash_free_app (a b : string) :
  slash_free (a +:+ b) = slash_free a && slash_free b.
Proof.
  induction a as [|c a IH]; [done|].
  change (negb (Ascii.eqb c "/") && slash_free (a +:+ b)
          = negb (Ascii.eqb c "/") && slash_free a && slash_free b).
  rewrite IH. by rewrite andb_assoc.
Qed.

Lemma digit_not_slash (n : nat) : Ascii.eqb (digit n) "/" = false.
Proof.
  unfold digit. pose proof (Nat.mod_upper_bound n 10 ltac:(lia)) as Hlt.
  destruct (n mod 10) as [|[|[|[|[|[|[|[|[|[|k]]]]]]]]]]; try done. lia.
Qed.

Lemma slash_free_strftime t : slash_free (strftime_Ymd_HMS t) = true.
Proof.
  unfold strftime_Ymd_HMS, pad4, pad2. rewrite !slash_free_app.
  cbn [slash_free]. by rewrite !digit_not_slash.
Qed.

(** X12: for a user identifier without "/", the text file of the run is
    a direct child of [chronos_output] in the directory of the module, and
    the directory line 40 creates is [chronos_output] itself. *)
Theorem output_file_in_chronos_output w u :
  slash_free u = true →
  run_output_text_file w u
  = (chronos_dir w ++ ["chronos_output"; run_element_id w u +:+ "_text.txt"])%list ∧
  Path.parent (run_output_text_file w u)
  = (chronos_dir w ++ ["chronos_output"])%list.
Proof.
  intros Hu.
  assert (Path.parts (run_element_id w u +:+ "_text.txt")
          = [run_element_id w u +:+ "_text.txt"]) as Hparts.
  { unfold Path.parts. rewrite split_slash_free.
    - done.
    - unfold run_element_id, element_id_of. cbn zeta.
      rewrite !slash_free_app, Hu, slash_free_strftime. done. }
  assert (run_output_text_file w u
    = (chronos_dir w ++ ["chronos_output"; run_element_id w u +:+ "_text.txt"])%list)
    as Hfile.
  { unfold run_output_text_file, Path.div. rewrite Hparts.
    by rewrite <- (assoc_L (++)%list). }
  split; [done|]. rewrite Hfile. unfold Path.parent.
  change (chronos_dir w ++ ["chronos_output"; run_element_id w u +:+ "_text.txt"])%list
    with (chronos_dir w ++ ["chronos_output"] ++ [run_element_id w u +:+ "_text.txt"])%list.
  rewrite (assoc_L (++)%list). apply removelast_last.
Qed.

Lemma output_file_in_chronos_output_witness :
  run_output_text_file world_success "42"
  = (chronos_dir world_success
     ++ ["chronos_output"; run_element_id world_success "42" +:+ "_text.txt"])%list ∧
  Path.parent (run_output_text_file world_success "42")
  = (chronos_dir world_success ++ ["chronos_output"])%list.
Proof. apply (output_file_in_chronos_output world_success "42"). done. Defined.

(** ** The [__main__] block of the bridge *)

Section MainBlockFacts.
Import Script BridgeMain.

Ltac script_unfold :=
  unfold show_result, print, emit, pure, mbind, T_bind, t_bind, mret, T_ret,
    t_ret.

Lemma print_hypotheses_lines (i : nat) (hs : list pyval) (out : list line) :
  print_hypotheses i hs out
  = (Returned (), (out ++ imap (λ k h, LHypothesis (i + k) h) hs)%list).
Proof.
  revert i out. induction hs as [|h hs IH]; intros i out.
  - cbn. by rewrite app_nil_r.
  - cbn [print_hypotheses]. script_unfold. rewrite IH.
    rewrite <- (assoc_L (++)%list). cbn [imap app]. rewrite Nat.add_0_r.
    do 3 f_equal. apply imap_ext. intros k x _. cbn. f_equal. lia.
Qed.

Lemma success_report_items qs rs text id :
  dict_getitem (success_report qs rs text id) "success" = Returned (VBool true) ∧
  dict_get (success_report qs rs text id) "error" = VNone ∧
  dict_getitem (success_report qs rs text id) "hypotheses" = Returned (VList qs) ∧
  dict_getitem (success_report qs rs text id) "verification_results"
    = Returned (VList rs).
Proof. done. Qed.

Lemma error_report_items msg :
  dict_getitem (error_report msg) "success" = Returned (VBool false) ∧
  dict_get (error_report msg) "error" = VStr msg ∧
  dict_getitem (error_report msg) "error" = Returned (VStr msg) ∧
  dict_getitem (error_report msg) "hypotheses" = Raised (Exc "'hypotheses'").
Proof. done. Qed.

Lemma no_hypotheses_report_items text :
  dict_getitem (no_hypotheses_report text) "success" = Returned (VBool false) ∧
  dict_get (no_hypotheses_report text) "error"
    = VStr "No hypotheses generated from the image" ∧
  dict_getitem (no_hypotheses_report text) "error"
    = Returned (VStr "No hypotheses generated from the image").
Proof. done. Qed.

Lemma show_success_report qs rs text id :
  show_result (success_report qs rs text id) []
  = (Returned (),
     (banner ++ [LSuccess (VBool true); LHypothesesCount (List.length qs)]
      ++ hypothesis_lines qs ++ [LVerificationCount (List.length rs)])%list).
Proof.
  destruct (success_report_items qs rs text id) as (Hs & He & Hh & Hv).
  script_unfold. rewrite Hs, He, Hh, Hv. cbn [truthy py_len py_iter app].
  rewrite print_hypotheses_lines. cbn [app].
  unfold banner, hypothesis_lines. cbn [app]. done.
Qed.

Lemma show_error_report msg :
  show_result (error_report msg) []
  = if String.eqb msg ""
    then (Raised (Exc "'hypotheses'"),
          (banner ++ [LSuccess (VBool false)])%list)
    else (Returned (),
          (banner ++ [LSuccess (VBool false); LError (VStr msg)])%list).
Proof.
  destruct (error_report_items msg) as (Hs & He & He' & Hh).
  script_unfold. rewrite Hs, He, He', Hh. cbn [truthy app].
  by destruct (String.eqb msg "").
Qed.

Lemma show_no_hypotheses_report text :
  show_result (no_hypotheses_report text) []
  = (Returned (),
     (banner ++ [LSuccess (VBool false);
                 LError (VStr "No hypotheses generated from the image")])%list).
Proof.
  destruct (no_hypotheses_report_items text) as (Hs & He & He').
  script_unfold. rewrite Hs, He, He'. done.
Qed.


Lemma run_returns_shape w i u r tr :
  process_telegram_image w i u = (Returned r, tr) →
  (∃ msg, r = error_report msg) ∨ (∃ text, r = no_hypotheses_report text) ∨
  (∃ qs rs text, r = success_report qs rs text (run_element_id w u)).
Proof.
  intros Hrun. pose proof (run_complete w i u) as Hp. rewrite Hrun in Hp.
  inversion Hp as [|msg tr0 _ _|?|r0 tr0 _ Hb]; subst; [left; eauto|].
  right. by apply body_returns_shape in Hb.
Qed.

Lemma Returned_inj {A} (a b : A) : Returned a = Returned b → a = b.
Proof. by intros [= ->]. Qed.

Lemma error_report_inj msg msg' : error_report msg = error_report msg' → msg = msg'.
Proof.
  intros Hr. apply (f_equal (λ r, dict_get r "error")) in Hr.
  destruct (error_report_items msg) as (_ & He & _).
  destruct (error_report_items msg') as (_ & He' & _).
  rewrite He, He' in Hr. by injection Hr.
Qed.

Lemma success_report_not_error qs rs text id msg :
  success_report qs rs text id ≠ error_report msg.
Proof.
  intros Hr. apply (f_equal (λ r, dict_getitem r "hypotheses")) in Hr.
  destruct (success_report_items qs rs text id) as (_ & _ & Hh & _).
  destruct (error_report_items msg) as (_ & _ & _ & Hh').
  rewrite Hh, Hh' in Hr. discriminate Hr.
Qed.

(** X14: with an existing image, the block ends in an exception in two
    cases only: [process_telegram_image] let one through, or it returned
    the error report of an exception whose message is empty; the block
    then reads that report as a success ([result.get('error')] is the
    empty string) and [result['hypotheses']] raises [KeyError]. *)
Theorem main_raises_iff w script test_image rest path_exists e :
  path_exists test_image = true →
  (main_block w (script :: test_image :: rest) path_exists).1.1 = Raised e ↔
  (process_telegram_image w test_image "test_user").1 = Raised e ∨
  ((process_telegram_image w test_image "test_user").1
     = Returned (error_report "") ∧ e = Exc "'hypotheses'").
Proof.
  intros Hex. unfold main_block. cbn [List.length Nat.ltb Nat.leb nth].
  rewrite Hex.
  destruct (process_telegram_image w test_image "test_user") as [[r|e'] tr]
    eqn:Hrun; cbn [fst].
  - destruct (run_returns_shape _ _ _ _ _ Hrun)
      as [[msg ->]|[[text ->]|(qs & rs & text & ->)]].
    + rewrite show_error_report.
      destruct (String.eqb_spec msg "") as [->|Hne]; cbn [fst].
      * split; [intros [= <-]; by right|].
        intros [Hr|[_ ->]]; [discriminate Hr|done].
      * split; [discriminate|]. intros [Hr|[Hr _]]; [discriminate Hr|].
        apply Returned_inj, error_report_inj in Hr. done.
    + rewrite show_no_hypotheses_report. cbn [fst].
      split; [discriminate|]. intros [Hr|[Hr _]]; [discriminate Hr|].
      apply Returned_inj in Hr. by apply no_hypotheses_report_not_error in Hr.
    + rewrite show_success_report. cbn [fst].
      split; [discriminate|]. intros [Hr|[Hr _]]; [discriminate Hr|].
      apply Returned_inj in Hr. by apply success_report_not_error in Hr.
  - cbn [fst]. split; [intros [= ->]; by left|].
    intros [[= ->]|[Hr _]]; [done|discriminate Hr].
Qed.

(** X15: for a report with "success" [True] the block prints the flag,
    the number of hypotheses, the hypotheses numbered from 1 in order, and
    the number of verification results. *)
Theorem main_shows_success w script test_image rest path_exists r tr :
  path_exists test_image = true →
  process_telegram_image w test_image "test_user" = (Returned r, tr) →
  r !! "success" = Some (VBool true) →
  ∃ qs rs,
    r !! "hypotheses" = Some (VList qs) ∧
    r !! "verification_results" = Some (VList rs) ∧
    main_block w (script :: test_image :: rest) path_exists
    = ((Returned (),
        (banner ++ [LSuccess (VBool true); LHypothesesCount (List.length qs)]
         ++ hypothesis_lines qs ++ [LVerificationCount (List.length rs)])%list),
       tr).
Proof.
  intros Hex Hrun Hok. unfold main_block. cbn [List.length Nat.ltb Nat.leb nth].
  rewrite Hex, Hrun.
  destruct (run_returns_shape _ _ _ _ _ Hrun)
    as [[msg ->]|[[text ->]|(qs & rs & text & ->)]];
    [discriminate Hok..|].
  exists qs, rs. by rewrite show_success_report.
Qed.

(** X16: for a report whose "error" counts as true (a failure with a
    message, or the zero-hypotheses report) the block prints the flag and
    the message and never reads "hypotheses" or
    "verification_results". *)
Theorem main_shows_error w script test_image rest path_exists r tr :
  path_exists test_image = true →
  process_telegram_image w test_image "test_user" = (Returned r, tr) →
  reads_as_error r = true →
  ∃ msg,
    r !! "error" = Some (VStr msg) ∧ msg ≠ "" ∧
    main_block w (script :: test_image :: rest) path_exists
    = ((Returned (), (banner ++ [LSuccess (VBool false); LError (VStr msg)])%list),
       tr).
Proof.
  intros Hex Hrun Herr. unfold main_block. cbn [List.length Nat.ltb Nat.leb nth].
  rewrite Hex, Hrun.
  destruct (run_returns_shape _ _ _ _ _ Hrun)
    as [[msg ->]|[[text ->]|(qs & rs & text & ->)]].
  - exists msg. rewrite show_error_report.
    unfold reads_as_error in Herr.
    destruct (error_report_items msg) as (_ & He & _). rewrite He in Herr.
    cbn [truthy] in Herr. apply negb_true_iff in Herr. rewrite Herr.
    split; [done|]. split; [|done]. intros ->. discriminate Herr.
  - eexists. rewrite show_no_hypotheses_report. by repeat split.
  - discriminate Herr.
Qed.


Lemma main_raises_iff_witness :
  (main_block world_silent_failure sample_argv (λ _, true)).1.1
    = Raised (Exc "'hypotheses'") ↔
  (process_telegram_image world_silent_failure "/tmp/photo.jpg" "test_user").1
    = Raised (Exc "'hypotheses'") ∨
  ((process_telegram_image world_silent_failure "/tmp/photo.jpg" "test_user").1
     = Returned (error_report "") ∧ Exc "'hypotheses'" = Exc "'hypotheses'").
Proof.
  apply (main_raises_iff world_silent_failure "telegram_bridge.py"
           "/tmp/photo.jpg" [] (λ _, true)).
  reflexivity.
Defined.

(** The block on a failure without message: the report comes back, and
    reading it raises. *)
Example main_keyerror_on_silent_failure :
  (process_telegram_image world_silent_failure "/tmp/photo.jpg" "test_user").1
    = Returned (error_report "") ∧
  (main_block world_silent_failure sample_argv (λ _, true)).1
    = (Raised (Exc "'hypotheses'"), (banner ++ [LSuccess (VBool false)])%list).
Proof. split; vm_compute; reflexivity. Qed.

Lemma main_shows_success_witness :
  ∃ qs rs,
    success_report
      [VStr "Does fever co-occur with cough?";
       VStr "Is cough a symptom of the patient?"]
      [VList [VStr "Does fever co-occur with cough?"; VStr "supported"];
       VList [VStr "Is cough a symptom of the patient?"; VStr "supported"]]
      fever_text "telegram_test_user_20240307_090542"
      !! "hypotheses" = Some (VList qs) ∧
    success_report
      [VStr "Does fever co-occur with cough?";
       VStr "Is cough a symptom of the patient?"]
      [VList [VStr "Does fever co-occur with cough?"; VStr "supported"];
       VList [VStr "Is cough a symptom of the patient?"; VStr "supported"]]
      fever_text "telegram_test_user_20240307_090542"
      !! "verification_results" = Some (VList rs) ∧
    main_block world_success sample_argv (λ _, true)
    = ((Returned (),
        (banner ++ [LSuccess (VBool true); LHypothesesCount (List.length qs)]
         ++ hypothesis_lines qs ++ [LVerificationCount (List.length rs)])%list),
       full_trace world_success "/tmp/photo.jpg" "test_user"
         [VStr "Does fever co-occur with cough?";
          VStr "Is cough a symptom of the patient?"]).
Proof.
  apply (main_shows_success world_success "telegram_bridge.py"
           "/tmp/photo.jpg" [] (λ _, true)).
  - reflexivity.
  - vm_compute. reflexivity.
  - reflexivity.
Defined.

Lemma main_shows_error_witness :
  ∃ msg,
    no_hypotheses_report fever_text !! "error" = Some (VStr msg) ∧ msg ≠ "" ∧
    main_block world_no_patterns sample_argv (λ _, true)
    = ((Returned (), (banner ++ [LSuccess (VBool false); LError (VStr msg)])%list),
       take 6 (full_trace world_no_patterns "/tmp/photo.jpg" "test_user" [])).
Proof.
  apply (main_shows_error world_no_patterns "telegram_bridge.py"
           "/tmp/photo.jpg" [] (λ _, true)).
  - reflexivity.
  - vm_compute. reflexivity.
  - reflexivity.
Defined.

End MainBlockFacts.

(** ** The script main.py *)

Section MainScriptFacts.
Import Script MainScript.




End MainScriptFacts.

Lemma script_commits_sample :
  MainScript.run_main
    (MainScript.sample (Returned (MainScript.RawText "fever, cough"))
       (Returned (MainScript.Parsed (GraphStore.Build_GraphElement [] []))))
  = (Returned (),
     MainScript.full_trace
       (MainScript.sample (Returned (MainScript.RawText "fever, cough"))
          (Returned (MainScript.Parsed (GraphStore.Build_GraphElement [] []))))
       "Patient has fever and cough."
       (MainScript.Build_element "Patient has fever and cough." "0")
       (MainScript.RawText "fever, cough")
       (MainScript.Parsed (GraphStore.Build_GraphElement [] []))) ∧
  existsb MainScript.is_commit
    (MainScript.run_main
       (MainScript.sample (Raised (Exc "rate limit"))
          (Returned (MainScript.Parsed (GraphStore.Build_GraphElement [] []))))).2
  = false.
Proof. split; reflexivity. Qed.
